(** * Log execution-time analyzer: extraction and aggregation

    A shallow embedding of [simple_log_analyzer_修正版.py].

    Python [str] values are lists of characters; a character is a code
    point below 256 (an [ascii]).  On that range [str.isspace] holds of
    U+0009..U+000D, U+001C..U+0020, U+0085 and U+00A0, and the regular
    expression class [\d] holds of "0".."9".  Python [int] is [Z].  The
    float that [/] produces is an IEEE 754 binary64 number ([spec_float]
    at precision 53), kept as the rational it stands for; the results of
    [np.median] and [np.percentile] are exact rationals ([Q]). *)

From Stdlib Require Import Ascii String.
From Stdlib Require Import List Arith ZArith QArith Qround Bool SpecFloat.
From Stdlib Require Import Lia Lqa Permutation Sorted.
Import ListNotations.
Open Scope nat_scope.

Definition str := list ascii.

(** A literal of the examples. *)
Definition py (s : string) : str := list_ascii_of_string s.

(** ** The string primitives the program calls *)

Module Py.

(** [c.isspace()] *)
Definition isspace (c : ascii) : bool :=
  let n := nat_of_ascii c in
  ((9 <=? n) && (n <=? 13)) || ((28 <=? n) && (n <=? 32))
  || (n =? 133) || (n =? 160).

(** the class [\d] *)
Definition isdigit (c : ascii) : bool :=
  let n := nat_of_ascii c in (48 <=? n) && (n <=? 57).

Fixpoint lstrip (s : str) : str :=
  match s with
  | [] => []
  | c :: t => if isspace c then lstrip t else s
  end.

Definition rstrip (s : str) : str := rev (lstrip (rev s)).

(** [s.strip()] *)
Definition strip (s : str) : str := rstrip (lstrip s).

(** [s.startswith(sub)] *)
Fixpoint startswith (sub s : str) : bool :=
  match sub, s with
  | [], _ => true
  | _ :: _, [] => false
  | a :: sub', b :: s' => Ascii.eqb a b && startswith sub' s'
  end.

(** The scan behind [find]: [s] is the text from index [i] on. *)
Fixpoint find_at (sub s : str) (i : nat) {struct s} : option nat :=
  if startswith sub s then Some i
  else match s with
       | [] => None
       | _ :: t => find_at sub t (S i)
       end.

(** [s.find(sub, start)] for [start >= 0]; [None] is the result [-1]. *)
Definition find (s sub : str) (start : nat) : option nat :=
  if start <=? length s then find_at sub (skipn start s) start else None.

(** [sub in s] *)
Definition contains (sub s : str) : bool :=
  match find s sub 0 with Some _ => true | None => false end.

(** [s[a:b]] for [a, b >= 0] *)
Definition slice (s : str) (a b : nat) : str := firstn (b - a) (skipn a s).

Definition newline : ascii := ascii_of_nat 10.

(** [s.split("\n")] *)
Fixpoint split_newline (s : str) : list str :=
  match s with
  | [] => [[]]
  | c :: t =>
    if Ascii.eqb c newline then [] :: split_newline t
    else match split_newline t with
         | [] => [[c]]
         | l :: ls => (c :: l) :: ls
         end
  end.

Fixpoint take_digits (s : str) : str :=
  match s with
  | [] => []
  | c :: t => if isdigit c then c :: take_digits t else []
  end.

(** [re.search(r'(\d+)', s)], giving [match.group(1)]: the leftmost
    longest run of digits. *)
Fixpoint re_search_digits (s : str) : option str :=
  match s with
  | [] => None
  | c :: t => if isdigit c then Some (take_digits s) else re_search_digits t
  end.

(** [a == b] on [str] *)
Fixpoint eqb (a b : str) : bool :=
  match a, b with
  | [], [] => true
  | x :: a', y :: b' => Ascii.eqb x y && eqb a' b'
  | _, _ => false
  end.

Definition digit_value (c : ascii) : Z := Z.of_nat (nat_of_ascii c) - 48.

(** [sys.int_info.default_max_str_digits] *)
Definition int_max_str_digits : nat := 4300.

(** [int(m)] on a group matched by [\d+]; [None] is the [ValueError]
    raised on a text that is not a run of digits, or that has more
    digits than the limit of the conversion. *)
Definition int_of_match (m : str) : option Z :=
  match m with
  | [] => None
  | _ :: _ =>
    if forallb isdigit m && (length m <=? int_max_str_digits)
    then Some (fold_left (fun acc c => 10 * acc + digit_value c) m 0)%Z
    else None
  end.

End Py.

(** ** Data model *)

(** One entry of [times]: the dict with keys "file", "line_num", "time",
    "line". *)
Record TimeRecord := mkTime {
  file : str;
  line_num : nat;
  time : Z;
  line : str
}.

(** One entry of [debug_info]; the keys set only on some paths are
    options. *)
Record LineInfo := mkInfo {
  li_line_num : nat;
  li_line : str;
  li_contains_prefix : bool;
  li_contains_suffix : bool;
  li_matched : bool;
  li_prefix_positions : option (list nat);
  li_suffix_positions : option (list nat);
  li_time_value : option Z;
  li_between_text : option str
}.

(** ** Extraction of one file *)

(** The two [while True] loops of lines 97-104 and 107-114: [start] moves
    to [pos + 1] after a hit.  A line of length [n] has at most [n + 1]
    hits, so [n + 2] rounds reach the [break]. *)
Fixpoint find_positions_loop (fuel : nat) (text sub : str) (start : nat)
  : list nat :=
  match fuel with
  | O => []
  | S fuel' =>
    match Py.find text sub start with
    | None => []
    | Some pos => pos :: find_positions_loop fuel' text sub (S pos)
    end
  end.

Definition find_positions (text sub : str) : list nat :=
  find_positions_loop (S (S (length text))) text sub 0.

(** [between_text] of line 128. *)
Definition between (text : str) (prefix_end suffix_pos : nat) : str :=
  Py.strip (Py.slice text prefix_end suffix_pos).

(** The inner loop, lines 124-153, for one [prefix_end].  It returns the
    records appended to [times], and the new [found] and [line_info].
    The test [if found: break] of line 152 belongs to this loop. *)
Fixpoint scan_suffixes (fname : str) (i : nat) (text : str) (prefix_end : nat)
    (suffix_positions : list nat) (found : bool) (info : LineInfo)
  : list TimeRecord * bool * LineInfo :=
  match suffix_positions with
  | [] => ([], found, info)
  | suffix_pos :: rest =>
    let next :=
      if found then ([], found, info)
      else scan_suffixes fname i text prefix_end rest found info in
    if prefix_end <=? suffix_pos then
      let between_text := between text prefix_end suffix_pos in
      match Py.re_search_digits between_text with
      | Some m =>
        match Py.int_of_match m with
        | Some time_value =>
          ([mkTime fname (i + 1) time_value (Py.strip text)],
           true,
           mkInfo (li_line_num info) (li_line info)
                  (li_contains_prefix info) (li_contains_suffix info)
                  true
                  (li_prefix_positions info) (li_suffix_positions info)
                  (Some time_value) (Some between_text))
        | None => next
        end
      | None => next
      end
    else next
  end.

(** The outer loop, lines 121-153: no statement leaves it early. *)
Fixpoint scan_prefixes (fname : str) (i : nat) (text : str) (prefix_len : nat)
    (prefix_positions suffix_positions : list nat)
    (found : bool) (info : LineInfo)
  : list TimeRecord * bool * LineInfo :=
  match prefix_positions with
  | [] => ([], found, info)
  | prefix_pos :: rest =>
    let '(recs, found1, info1) :=
      scan_suffixes fname i text (prefix_pos + prefix_len)
                    suffix_positions found info in
    let '(recs', found2, info2) :=
      scan_prefixes fname i text prefix_len rest suffix_positions
                    found1 info1 in
    (recs ++ recs', found2, info2)
  end.

(** The body of [for i, line in enumerate(lines)], lines 86-155. *)
Definition scan_line (fname prefix suffix : str) (i : nat) (text : str)
  : list TimeRecord * LineInfo :=
  let info :=
    mkInfo (i + 1) text (Py.contains prefix text) (Py.contains suffix text)
           false None None None None in
  if Py.contains prefix text && Py.contains suffix text then
    let prefix_positions := find_positions text prefix in
    let suffix_positions := find_positions text suffix in
    let info1 :=
      mkInfo (i + 1) text (Py.contains prefix text) (Py.contains suffix text)
             false (Some prefix_positions) (Some suffix_positions)
             None None in
    let '(recs, _, info2) :=
      scan_prefixes fname i text (length prefix)
                    prefix_positions suffix_positions false info1 in
    (recs, info2)
  else ([], info).

(** The loop over the lines, from index [i] on. *)
Fixpoint scan_lines (fname prefix suffix : str) (i : nat) (lines : list str)
  : list TimeRecord * list LineInfo :=
  match lines with
  | [] => ([], [])
  | text :: rest =>
    let '(recs, info) := scan_line fname prefix suffix i text in
    let '(times, debug_info) := scan_lines fname prefix suffix (S i) rest in
    (recs ++ times, info :: debug_info)
  end.

(** Line 79. *)
Definition content_lines (log_content : str) : list str :=
  Py.split_newline (Py.strip log_content).

(** Lines 79-167: the extractor on the content of one file. *)
Definition extract (log_content prefix suffix fname : str)
  : list TimeRecord * list LineInfo :=
  scan_lines fname prefix suffix 0 (content_lines log_content).


(** ** Aggregation *)

(** The dict returned by [calculate_statistics]. *)
Record Statistics := mkStats {
  st_count : nat;
  st_min : Z;
  st_max : Z;
  st_avg : Q;
  st_median : Q;
  st_p90 : Q;
  st_p95 : Q;
  st_p99 : Q
}.

(** Lines 205-214. *)
Definition zero_statistics : Statistics :=
  mkStats 0 0%Z 0%Z 0%Q 0%Q 0%Q 0%Q 0%Q.

(** [min(values)] and [max(values)]: [None] is the [ValueError] on an
    empty list. *)
Definition py_min (values : list Z) : option Z :=
  match values with
  | [] => None
  | v :: rest => Some (fold_left Z.min rest v)
  end.

Definition py_max (values : list Z) : option Z :=
  match values with
  | [] => None
  | v :: rest => Some (fold_left Z.max rest v)
  end.

(** [sum(values)] *)
Definition py_sum (values : list Z) : Z := fold_left Z.add values 0%Z.

Fixpoint insert_sorted (x : Z) (l : list Z) : list Z :=
  match l with
  | [] => [x]
  | y :: t => if (x <=? y)%Z then x :: l else y :: insert_sorted x t
  end.

(** The values in ascending order. *)
Definition sort (values : list Z) : list Z :=
  fold_right insert_sorted [] values.

(** Modelled from the spec: [np.percentile] is numpy's and not under src/.
    The spec (9) says that the code relies on numpy's default method;
    that is the method "linear": with the virtual index
    [(n - 1) * q / 100] in the sorted array, the result interpolates
    between the entry at its floor and the next entry (the last one at
    most), by its fractional part. *)
Definition np_percentile (a : list Z) (q : Z) : Q :=
  let arr := sort a in
  let n := Z.of_nat (length arr) in
  let virtual_index := (inject_Z (n - 1) * (inject_Z q / 100))%Q in
  let previous_index := Qfloor virtual_index in
  let next_index := Z.min (previous_index + 1) (n - 1) in
  let gamma := (virtual_index - inject_Z previous_index)%Q in
  let previous := nth (Z.to_nat previous_index) arr 0%Z in
  let next := nth (Z.to_nat next_index) arr 0%Z in
  (inject_Z previous + (inject_Z next - inject_Z previous) * gamma)%Q.

(** Modelled from the spec: [np.median] is numpy's and not under src/.
    The spec names the median without a formula of its own; this is the
    usual one, which numpy documents: the middle value of the sorted
    data, the mean of the two middle values when the count is even.
    Like [np_percentile] it is computed on exact rationals: the rounding
    of numpy's float64 arithmetic is not modelled. *)
Definition np_median (values : list Z) : Q :=
  let sorted := sort values in
  let n := length sorted in
  if Nat.even n
  then ((inject_Z (nth (n / 2 - 1) sorted 0%Z)
         + inject_Z (nth (n / 2) sorted 0%Z)) / 2)%Q
  else inject_Z (nth (n / 2) sorted 0%Z).

(** [float(z)] for an [int] that is an operand of [/]: the number
    itself, before any rounding. *)
Definition float_of_int (z : Z) : spec_float :=
  match z with
  | Z0 => S754_zero false
  | Zpos m => S754_finite false m 0
  | Zneg m => S754_finite true m 0
  end.

(** [a / b] on two [int]: the quotient rounded once, to the nearest
    binary64 number, ties to even.  [None] is the [OverflowError] of a
    quotient too large for a float, or the [ZeroDivisionError]. *)
Definition py_truediv (a b : Z) : option Q :=
  match SFdiv 53 1024 (float_of_int a) (float_of_int b) with
  | S754_zero _ => Some 0%Q
  | S754_finite s m e =>
    Some (inject_Z (if s then Zneg m else Zpos m) * Qpower 2 e)%Q
  | S754_infinity _ | S754_nan => None
  end.

(** The dict built at lines 218-227 and again at 242-251; its entries
    are computed in the order of the keys. *)
Definition summarize (values : list Z) : option Statistics :=
  match py_min values, py_max values,
        py_truediv (py_sum values) (Z.of_nat (length values)) with
  | Some lo, Some hi, Some avg =>
    Some (mkStats (length values) lo hi avg
                  (np_median values)
                  (np_percentile values 90)
                  (np_percentile values 95)
                  (np_percentile values 99))
  | _, _, _ => None
  end.

(** Lines 202-227; [None] would be an exception. *)
Definition calculate_statistics (times : list TimeRecord)
  : option Statistics :=
  match times with
  | [] => Some zero_statistics
  | _ :: _ => summarize (map time times)
  end.

(** Lines 236-238 on the dict [file_groups], kept in insertion order. *)
Fixpoint group_append (file_groups : list (str * list Z)) (file_name : str)
    (v : Z) : list (str * list Z) :=
  match file_groups with
  | [] => [(file_name, [v])]
  | (k, values) :: rest =>
    if Py.eqb k file_name then (k, values ++ [v]) :: rest
    else (k, values) :: group_append rest file_name v
  end.

(** Lines 232-238. *)
Definition file_groups (times : list TimeRecord) : list (str * list Z) :=
  fold_left (fun groups item => group_append groups (file item) (time item))
            times [].

(** Lines 240-251. *)
Fixpoint group_stats (groups : list (str * list Z))
  : option (list (str * Statistics)) :=
  match groups with
  | [] => Some []
  | (file_name, values) :: rest =>
    match summarize values, group_stats rest with
    | Some s, Some stats => Some ((file_name, s) :: stats)
    | _, _ => None
    end
  end.

(** Lines 230-253. *)
Definition group_by_file (times : list TimeRecord)
  : option (list (str * Statistics)) :=
  group_stats (file_groups times).

(** ** Extraction of a directory, and the run *)

(** [d[key] = value] on a dict kept in insertion order. *)
Fixpoint dict_set {V : Type} (d : list (str * V)) (key : str) (value : V)
  : list (str * V) :=
  match d with
  | [] => [(key, value)]
  | (k, v) :: rest =>
    if Py.eqb k key then (k, value) :: rest
    else (k, v) :: dict_set rest key value
  end.

(** Line 56. *)
Definition excluded_extensions : list str := [py ".exe"; py ".bat"].

Section World.

(** The operating system and the libraries that reach it, as the program
    sees them. *)

(** [os.path.basename] *)
Variable basename : str -> str.
(** [open(log_file, 'r', encoding='utf-8', errors='ignore')] and
    [f.read()]: [None] when either raises. *)
Variable read_file : str -> option str.
(** [glob.glob(os.path.join(log_dir, "*"))] *)
Variable glob : str -> list str.
(** [os.path.isfile] *)
Variable isfile : str -> bool.
(** [os.path.splitext(f)[1].lower()] *)
Variable file_ext : str -> str.
(** [os.path.isdir] *)
Variable isdir : str -> bool.
(** [export_to_excel], lines 256-396, writes the spreadsheet; [false]
    when it raises. *)
Variable export_to_excel :
  list TimeRecord -> Statistics -> list (str * Statistics) ->
  str -> str -> bool.

(** Lines 47-70. *)
Definition get_all_files (log_dir : str) : list str :=
  filter (fun f =>
            isfile f
            && negb (existsb (Py.eqb (file_ext f)) excluded_extensions))
         (glob log_dir).

(** Lines 73-170: an exception anywhere in the body ends in the handler
    of line 168, which returns two empty lists. *)
Definition extract_times_from_file (log_file prefix suffix : str)
  : list TimeRecord * list LineInfo :=
  match read_file log_file with
  | Some log_content => extract log_content prefix suffix (basename log_file)
  | None => ([], [])
  end.

(** The loop of lines 188-197 from the state [(all_times,
    all_debug_info)]. *)
Fixpoint extract_files (all_files : list str) (prefix suffix : str)
    (all_times : list TimeRecord)
    (all_debug_info : list (str * list LineInfo))
  : list TimeRecord * list (str * list LineInfo) :=
  match all_files with
  | [] => (all_times, all_debug_info)
  | log_file :: rest =>
    let '(times, debug_info) :=
      extract_times_from_file log_file prefix suffix in
    extract_files rest prefix suffix (all_times ++ times)
                  (dict_set all_debug_info (basename log_file) debug_info)
  end.

(** Lines 173-199. *)
Definition extract_times_from_directory (log_dir prefix suffix : str)
  : list TimeRecord * list (str * list LineInfo) :=
  let all_files := get_all_files log_dir in
  match all_files with
  | [] => ([], [])
  | _ :: _ => extract_files all_files prefix suffix [] []
  end.

(** Lines 399-482: the exit status. *)
Definition main (log_dir prefix suffix : str) : Z :=
  if negb (isdir log_dir) then 1%Z
  else
    match prefix, suffix with
    | [], _ | _, [] => 1%Z
    | _ :: _, _ :: _ =>
      let '(times, _) := extract_times_from_directory log_dir prefix suffix in
      match times with
      | [] => 0%Z
      | _ :: _ =>
        match calculate_statistics times, group_by_file times with
        | Some overall_stats, Some file_stats =>
          if export_to_excel times overall_stats file_stats prefix suffix
          then 0%Z else 1%Z
        | _, _ => 1%Z
        end
      end
    end.

End World.

(** ** Sample inputs *)

Definition sample_basename (p : str) : str := p.

(** A directory with three entries; "a.log" cannot be read and "c.exe"
    is excluded by its extension. *)
Definition sample_glob (log_dir : str) : list str :=
  [py "a.log"; py "b.log"; py "c.exe"].

Definition sample_isfile (f : str) : bool := true.

Definition sample_ext (f : str) : str :=
  if Py.eqb f (py "c.exe") then py ".exe" else py ".log".

Definition sample_read (log_file : str) : option str :=
  if Py.eqb log_file (py "a.log") then None else Some (py "x=7ms").

Definition sample_isdir (log_dir : str) : bool := true.

Definition sample_export (times : list TimeRecord) (overall : Statistics)
    (file_stats : list (str * Statistics)) (prefix suffix : str) : bool :=
  true.

(** ** Notions the statements use *)

(** [sub] occurs in [text] at index [p]. *)
Definition occurs_at (text sub : str) (p : nat) : Prop :=
  p + length sub <= length text /\ firstn (length sub) (skipn p text) = sub.

(** The value read between a prefix ending at [prefix_end] and a suffix
    starting at [suffix_pos]: the pair must be a candidate (line 126) and
    the text between must hold a run of digits (lines 131-135). *)
Definition candidate_value (text : str) (prefix_end suffix_pos : nat)
  : option Z :=
  if prefix_end <=? suffix_pos then
    match Py.re_search_digits (between text prefix_end suffix_pos) with
    | Some m => Py.int_of_match m
    | None => None
    end
  else None.

(** The first value along the suffix positions, for one prefix. *)
Fixpoint first_candidate (text : str) (prefix_end : nat)
    (suffix_positions : list nat) : option Z :=
  match suffix_positions with
  | [] => None
  | suffix_pos :: rest =>
    match candidate_value text prefix_end suffix_pos with
    | Some v => Some v
    | None => first_candidate text prefix_end rest
    end
  end.

(** The first value in the nested order: prefixes outside, suffixes
    inside. *)
Fixpoint first_pair (text : str) (prefix_len : nat)
    (prefix_positions suffix_positions : list nat) : option Z :=
  match prefix_positions with
  | [] => None
  | prefix_pos :: rest =>
    match first_candidate text (prefix_pos + prefix_len) suffix_positions with
    | Some v => Some v
    | None => first_pair text prefix_len rest suffix_positions
    end
  end.

(** The lexicographic order on pairs of positions. *)
Definition lex_le (a b : nat * nat) : Prop :=
  fst a < fst b \/ (fst a = fst b /\ snd a <= snd b).

(** [r] was produced from the line [text] at index [i] of file [fname]. *)
Definition record_of_line (fname : str) (i : nat) (text : str)
    (r : TimeRecord) : Prop :=
  file r = fname /\ line_num r = i + 1 /\ line r = Py.strip text.

(** [line_num r] is the 1-indexed position, in [lines], of the line that
    [r] was extracted from. *)
Definition extracted_from (lines : list str) (fname prefix suffix : str)
    (r : TimeRecord) : Prop :=
  1 <= line_num r /\
  exists text,
    nth_error lines (line_num r - 1) = Some text /\
    In r (fst (scan_line fname prefix suffix (line_num r - 1) text)).

Definition all_space (s : str) : Prop :=
  Forall (fun c => Py.isspace c = true) s.

(** The whitespace that [lstrip] removes. *)
Fixpoint leading_space (s : str) : str :=
  match s with
  | [] => []
  | c :: t => if Py.isspace c then c :: leading_space t else []
  end.

(** The number of newlines in the whitespace before the first other
    character: the lines that [strip] removes before line 79 splits. *)
Definition leading_newlines (content : str) : nat :=
  count_occ ascii_dec (leading_space content) Py.newline.

(** The rank of the percentile [pN], in the words of the spec (4.2 and
    glossary): [N/100 * (count - 1)], zero-indexed. *)
Definition percentile_rank (N : Z) (count : nat) : Q :=
  ((inject_Z N / 100) * inject_Z (Z.of_nat count - 1))%Q.

(** The percentile [pN] in the words of the spec: the value at that rank
    of the sorted values, interpolated linearly between the values at the
    floor and at the ceiling of the rank. *)
Definition spec_percentile (values : list Z) (N : Z) : Q :=
  let sorted := sort values in
  let rank := percentile_rank N (length values) in
  let lo := nth (Z.to_nat (Qfloor rank)) sorted 0%Z in
  let hi := nth (Z.to_nat (Qceiling rank)) sorted 0%Z in
  (inject_Z lo
   + (rank - inject_Z (Qfloor rank)) * (inject_Z hi - inject_Z lo))%Q.

Definition line_num_le (a b : TimeRecord) : Prop := line_num a <= line_num b.

(** [m] is the leftmost maximal run of digits of [s]. *)
Definition leftmost_digit_run (s m : str) : Prop :=
  exists pre post,
    s = pre ++ m ++ post /\
    existsb Py.isdigit pre = false /\
    m <> [] /\ forallb Py.isdigit m = true /\
    match post with [] => True | c :: _ => Py.isdigit c = false end.

(** [v] is read on the line [text] between an occurrence of [prefix] and
    a later occurrence of [suffix]. *)
Definition value_between (text prefix suffix : str) (v : Z) : Prop :=
  exists pp sp m,
    occurs_at text prefix pp /\ occurs_at text suffix sp /\
    pp + length prefix <= sp /\
    leftmost_digit_run (between text (pp + length prefix) sp) m /\
    Py.int_of_match m = Some v.

(** The time of the last record, if any. *)
Definition last_time (recs : list TimeRecord) : option Z :=
  last (map (fun r => Some (time r)) recs) None.

(** How the inner loop leaves [line_info] after appending [recs]: only
    the keys "matched" and "time_value" can change. *)
Definition info_after (info : LineInfo) (recs : list TimeRecord)
    (info' : LineInfo) : Prop :=
  li_line_num info' = li_line_num info /\
  li_line info' = li_line info /\
  li_contains_prefix info' = li_contains_prefix info /\
  li_contains_suffix info' = li_contains_suffix info /\
  li_prefix_positions info' = li_prefix_positions info /\
  li_suffix_positions info' = li_suffix_positions info /\
  li_matched info'
  = match recs with [] => li_matched info | _ :: _ => true end /\
  li_time_value info' =
  match last_time recs with Some v => Some v | None => li_time_value info end.

(** The interpolation of [spec_percentile] at the rank [z/100], with
    the floor, the ceiling and the fractional part written on [Z]. *)
Definition interp (sorted : list Z) (z : Z) : Q :=
  (inject_Z (nth (Z.to_nat (z / 100)) sorted 0%Z)
   + (z mod 100 # 100)
     * (inject_Z (nth (Z.to_nat (- (- z / 100))) sorted 0%Z)
        - inject_Z (nth (Z.to_nat (z / 100)) sorted 0%Z)))%Q.

(** [d.get(key)] on a dict kept as a list: the first entry of the key. *)
Fixpoint dict_get {V : Type} (d : list (str * V)) (key : str) : option V :=
  match d with
  | [] => None
  | (k, v) :: rest => if Py.eqb k key then Some v else dict_get rest key
  end.

(** The records of the file [file_name], in their order. *)
Definition records_of (file_name : str) (times : list TimeRecord)
  : list TimeRecord :=
  filter (fun r => Py.eqb (file r) file_name) times.

(** The values read once [found] is set: each prefix position is tried
    against the first suffix position alone. *)
Definition later_values (text : str) (prefix_len : nat)
    (prefix_positions suffix_positions : list nat) : list Z :=
  flat_map (fun prefix_pos =>
              match suffix_positions with
              | [] => []
              | suffix_pos :: _ =>
                match candidate_value text (prefix_pos + prefix_len)
                                      suffix_pos with
                | Some v => [v]
                | None => []
                end
              end)
           prefix_positions.

(** The values of all the records of a line, in order. *)
Fixpoint line_values (text : str) (prefix_len : nat)
    (prefix_positions suffix_positions : list nat) : list Z :=
  match prefix_positions with
  | [] => []
  | prefix_pos :: rest =>
    match first_candidate text (prefix_pos + prefix_len) suffix_positions with
    | Some v => v :: later_values text prefix_len rest suffix_positions
    | None => line_values text prefix_len rest suffix_positions
    end
  end.

(** * Properties *)

(** ** Searching a line *)

Lemma startswith_firstn sub s :
  Py.startswith sub s = true <-> firstn (length sub) s = sub.
Proof.
  revert s; induction sub as [|a sub IH]; intros [|b s]; simpl;
    try (split; [reflexivity | reflexivity]);
    try (split; discriminate).
  rewrite andb_true_iff, IH. split.
  - intros [E H]. apply Ascii.eqb_eq in E. now subst; rewrite H.
  - intros H. injection H as -> H. split; [apply Ascii.eqb_refl | exact H].
Qed.

Lemma firstn_eq_length (sub s : str) :
  firstn (length sub) s = sub -> length sub <= length s.
Proof.
  intros H. apply (f_equal (@length ascii)) in H.
  rewrite length_firstn in H. lia.
Qed.

Lemma occurs_at_startswith text sub p :
  occurs_at text sub p <->
  p <= length text /\ Py.startswith sub (skipn p text) = true.
Proof.
  unfold occurs_at. rewrite startswith_firstn. split.
  - intros [H E]. split; [lia | exact E].
  - intros [H E]. split; [|exact E].
    apply firstn_eq_length in E. rewrite length_skipn in E. lia.
Qed.

Lemma find_at_Some sub s i p :
  Py.find_at sub s i = Some p ->
  i <= p /\ p - i <= length s /\
  Py.startswith sub (skipn (p - i) s) = true /\
  forall j, j < p - i -> Py.startswith sub (skipn j s) = false.
Proof.
  revert i; induction s as [|c s IH]; intros i; simpl.
  - destruct (Py.startswith sub []) eqn:E; [|discriminate].
    intros [= <-]. rewrite Nat.sub_diag. simpl.
    repeat split; try lia. exact E.
  - destruct (Py.startswith sub (c :: s)) eqn:E.
    + intros [= <-]. rewrite Nat.sub_diag. simpl.
      repeat split; try lia. exact E.
    + intros H. apply IH in H. destruct H as (H1 & H2 & H3 & H4).
      replace (p - i) with (S (p - S i)) by lia. simpl.
      repeat split; try lia; [exact H3|].
      intros [|j] Hj; simpl; [exact E | apply H4; lia].
Qed.

Lemma find_at_None sub s i :
  Py.find_at sub s i = None ->
  forall j, j <= length s -> Py.startswith sub (skipn j s) = false.
Proof.
  revert i; induction s as [|c s IH]; intros i; simpl.
  - destruct (Py.startswith sub []) eqn:E; [discriminate|].
    intros _ j Hj. now replace j with 0 by lia.
  - destruct (Py.startswith sub (c :: s)) eqn:E; [discriminate|].
    intros H [|j] Hj; simpl; [exact E|]. apply (IH _ H). lia.
Qed.

Lemma find_Some text sub start p :
  Py.find text sub start = Some p ->
  start <= p /\ occurs_at text sub p /\
  forall j, start <= j < p -> ~ occurs_at text sub j.
Proof.
  unfold Py.find. destruct (start <=? length text) eqn:L; [|discriminate].
  apply Nat.leb_le in L. intros H. apply find_at_Some in H.
  destruct H as (H1 & H2 & H3 & H4). rewrite length_skipn in H2.
  rewrite skipn_skipn in H3. replace (p - start + start) with p in H3 by lia.
  split; [exact H1|]. split.
  - apply occurs_at_startswith. split; [lia | exact H3].
  - intros j Hj O. apply occurs_at_startswith in O. destruct O as [_ O].
    specialize (H4 (j - start) ltac:(lia)). rewrite skipn_skipn in H4.
    replace (j - start + start) with j in H4 by lia. congruence.
Qed.

Lemma find_None text sub start :
  Py.find text sub start = None ->
  forall j, start <= j -> ~ occurs_at text sub j.
Proof.
  unfold Py.find. intros H j Hj O.
  apply occurs_at_startswith in O. destruct O as [Hl O].
  destruct (start <=? length text) eqn:L.
  - apply Nat.leb_le in L.
    pose proof (find_at_None _ _ _ H (j - start)) as N.
    rewrite length_skipn, skipn_skipn in N.
    replace (j - start + start) with j in N by lia.
    rewrite N in O by lia. discriminate.
  - apply Nat.leb_gt in L. lia.
Qed.

Lemma find_positions_loop_In fuel text sub start p :
  length text + 2 <= fuel + start ->
  In p (find_positions_loop fuel text sub start) <->
  start <= p /\ occurs_at text sub p.
Proof.
  revert start; induction fuel as [|fuel IH]; intros start Hf; simpl.
  - split; [tauto|]. intros [H O]. destruct O as [O _]. lia.
  - destruct (Py.find text sub start) as [pos|] eqn:F.
    + apply find_Some in F. destruct F as (F1 & F2 & F3).
      simpl. rewrite IH by lia. split.
      * intros [<- | [H O]]; [tauto | split; [lia | exact O]].
      * intros [H O]. destruct (Nat.eq_dec pos p) as [|N]; [now left|].
        right. split; [|exact O].
        destruct (Nat.lt_ge_cases p pos) as [Hlt|]; [|lia].
        exfalso. apply (F3 p); [lia | exact O].
    + split; [intros []|]. intros [H O]. exact (find_None _ _ _ F p H O).
Qed.

Lemma find_positions_loop_sorted fuel text sub start :
  StronglySorted lt (find_positions_loop fuel text sub start) /\
  Forall (fun p => start <= p) (find_positions_loop fuel text sub start).
Proof.
  revert start; induction fuel as [|fuel IH]; intros start; simpl.
  - split; constructor.
  - destruct (Py.find text sub start) as [pos|] eqn:F; [|split; constructor].
    apply find_Some in F. destruct F as (F1 & _).
    destruct (IH (S pos)) as [S1 S2]. split.
    + constructor; [exact S1|].
      eapply Forall_impl; [|exact S2]. simpl. intros; lia.
    + constructor; [exact F1|].
      eapply Forall_impl; [|exact S2]. simpl. intros; lia.
Qed.

Lemma find_positions_In text sub p :
  In p (find_positions text sub) <-> occurs_at text sub p.
Proof.
  unfold find_positions. rewrite find_positions_loop_In by lia.
  split; [tauto | intros; split; [lia | assumption]].
Qed.

Lemma find_positions_sorted text sub :
  StronglySorted lt (find_positions text sub).
Proof. apply find_positions_loop_sorted. Qed.

(** C4.  The list of positions of [sub] in a line holds every index at
    which [sub] occurs, overlapping occurrences included, in strictly
    ascending order; the search resumes one past each hit, so that "AA"
    is found in "AAA" at 0 and at 1. *)
Theorem find_positions_all_occurrences :
  (forall text sub p,
      In p (find_positions text sub) <-> occurs_at text sub p) /\
  (forall text sub, StronglySorted lt (find_positions text sub)) /\
  (forall fuel text sub start pos,
      Py.find text sub start = Some pos ->
      find_positions_loop (S fuel) text sub start =
      pos :: find_positions_loop fuel text sub (pos + 1)) /\
  find_positions (py "AAA") (py "AA") = [0; 1].
Proof.
  split; [exact find_positions_In|].
  split; [exact find_positions_sorted|].
  split; [|reflexivity].
  intros fuel text sub start pos F. simpl. rewrite F.
  now rewrite Nat.add_1_r.
Qed.

(** ** Scanning the pairs of one line *)

Lemma re_search_digits_None s :
  Py.re_search_digits s = None <-> existsb Py.isdigit s = false.
Proof.
  induction s as [|c s IH]; simpl; [tauto|].
  destruct (Py.isdigit c); simpl; [split; discriminate | exact IH].
Qed.

Lemma take_digits_all s : forallb Py.isdigit (Py.take_digits s) = true.
Proof.
  induction s as [|c s IH]; simpl; [reflexivity|].
  destruct (Py.isdigit c) eqn:D; simpl; [now rewrite D|reflexivity].
Qed.

(** The handler of line 149 is entered only above the limit of the
    conversion: a shorter match of [\d+] converts. *)
Lemma int_of_match_converts s m :
  Py.re_search_digits s = Some m ->
  length m <= Py.int_max_str_digits ->
  exists v, Py.int_of_match m = Some v.
Proof.
  induction s as [|c s IH]; simpl; [discriminate|].
  destruct (Py.isdigit c) eqn:D; [|exact IH].
  intros [= <-] L. unfold Py.int_of_match.
  pose proof (take_digits_all (c :: s)) as A. cbn [Py.take_digits] in A.
  rewrite D in A. apply Nat.leb_le in L.
  destruct (Py.take_digits s) eqn:T; rewrite A, L; cbn [andb]; eauto.
Qed.

Lemma int_of_match_limit m v :
  Py.int_of_match m = Some v -> length m <= Py.int_max_str_digits.
Proof.
  unfold Py.int_of_match. destruct m as [|c m]; [discriminate|].
  destruct (forallb Py.isdigit (c :: m)); [|discriminate].
  destruct (length (c :: m) <=? Py.int_max_str_digits) eqn:L;
    [|discriminate].
  intros _. now apply Nat.leb_le.
Qed.

(** A pair without a digit between counts as no match. *)
Lemma candidate_value_no_digit text pe sp :
  existsb Py.isdigit (between text pe sp) = false ->
  candidate_value text pe sp = None.
Proof.
  intros N. unfold candidate_value. destruct (pe <=? sp); [|reflexivity].
  apply re_search_digits_None in N. now rewrite N.
Qed.

Lemma candidate_value_not_candidate text pe sp :
  sp < pe -> candidate_value text pe sp = None.
Proof.
  intros L. unfold candidate_value. apply Nat.leb_gt in L. now rewrite L.
Qed.

(** A pair gives a value exactly when it is a candidate and the first
    run of digits between is one that [int] converts. *)
Lemma candidate_value_converts text pe sp :
  candidate_value text pe sp <> None <->
  pe <= sp /\
  exists m, Py.re_search_digits (between text pe sp) = Some m /\
            length m <= Py.int_max_str_digits.
Proof.
  unfold candidate_value. destruct (pe <=? sp) eqn:L.
  - apply Nat.leb_le in L.
    destruct (Py.re_search_digits (between text pe sp)) as [m|] eqn:R.
    + split.
      * intros N. split; [exact L|]. exists m. split; [reflexivity|].
        destruct (Py.int_of_match m) as [v|] eqn:I; [|congruence].
        exact (int_of_match_limit _ _ I).
      * intros (_ & m' & [= <-] & Lm).
        destruct (int_of_match_converts _ _ R Lm) as [v ->]. discriminate.
    + split; [congruence|]. intros (_ & m & E & _). discriminate.
  - apply Nat.leb_gt in L. split; [congruence | lia].
Qed.

Lemma scan_suffixes_not_found fname i text pe sps info :
  fst (scan_suffixes fname i text pe sps false info) =
  match first_candidate text pe sps with
  | Some v => ([mkTime fname (i + 1) v (Py.strip text)], true)
  | None => ([], false)
  end.
Proof.
  induction sps as [|sp sps IH]; simpl; [reflexivity|].
  unfold candidate_value. destruct (pe <=? sp); [|exact IH].
  destruct (Py.re_search_digits (between text pe sp)) as [m|]; [|exact IH].
  destruct (Py.int_of_match m); [reflexivity | exact IH].
Qed.

Lemma scan_prefixes_first fname i text plen pps sps info :
  hd_error (map time (fst (fst (scan_prefixes fname i text plen pps sps
                                              false info)))) =
  first_pair text plen pps sps.
Proof.
  revert info; induction pps as [|pp pps IH]; intros info; simpl;
    [reflexivity|].
  pose proof (scan_suffixes_not_found fname i text (pp + plen) sps info) as E.
  destruct (scan_suffixes fname i text (pp + plen) sps false info)
    as [[recs found1] info1].
  simpl in E.
  destruct (scan_prefixes fname i text plen pps sps found1 info1)
    as [[recs' found2] info2] eqn:P.
  destruct (first_candidate text (pp + plen) sps) as [v|].
  - injection E as -> ->. reflexivity.
  - injection E as -> ->. specialize (IH info1). rewrite P in IH. exact IH.
Qed.

Lemma contains_false_positions sub text :
  Py.contains sub text = false -> find_positions text sub = [].
Proof.
  unfold Py.contains, find_positions. simpl.
  now destruct (Py.find text sub 0).
Qed.

Lemma first_candidate_nil_r text plen pps : first_pair text plen pps [] = None.
Proof. induction pps; simpl; auto. Qed.

Lemma scan_line_first fname prefix suffix i text :
  hd_error (map time (fst (scan_line fname prefix suffix i text))) =
  first_pair text (length prefix)
             (find_positions text prefix) (find_positions text suffix).
Proof.
  unfold scan_line.
  destruct (Py.contains prefix text) eqn:Cp; simpl.
  - destruct (Py.contains suffix text) eqn:Cs; simpl.
    + match goal with
      | |- context [scan_prefixes ?a ?b ?c ?d ?e ?f false ?g] =>
        pose proof (scan_prefixes_first a b c d e f g) as E;
        destruct (scan_prefixes a b c d e f false g) as [[recs fd] info2]
      end.
      exact E.
    + rewrite (contains_false_positions _ _ Cs).
      now rewrite first_candidate_nil_r.
  - now rewrite (contains_false_positions _ _ Cp).
Qed.

Lemma first_candidate_None text pe sps :
  first_candidate text pe sps = None <->
  forall sp, In sp sps -> candidate_value text pe sp = None.
Proof.
  induction sps as [|sp sps IH]; simpl; [tauto|].
  destruct (candidate_value text pe sp) eqn:C.
  - split; [discriminate|]. intros H.
    rewrite H in C by (now left). discriminate.
  - rewrite IH. split.
    + intros H s' [<-|I]; auto.
    + intros H s' I. apply H. now right.
Qed.

Lemma first_pair_None text plen pps sps :
  first_pair text plen pps sps = None <->
  forall pp sp, In pp pps -> In sp sps ->
                candidate_value text (pp + plen) sp = None.
Proof.
  induction pps as [|pp pps IH]; simpl; [tauto|].
  destruct (first_candidate text (pp + plen) sps) eqn:C.
  - split; [discriminate|]. intros H.
    assert (N : first_candidate text (pp + plen) sps = None)
      by (apply first_candidate_None; intros sp I; apply H; auto).
    congruence.
  - rewrite IH. rewrite first_candidate_None in C. split.
    + intros H p' s' [<-|I] J; auto.
    + intros H p' s' I J. apply H; auto.
Qed.

Lemma first_candidate_Some text pe sps v :
  StronglySorted lt sps ->
  first_candidate text pe sps = Some v ->
  exists sp, In sp sps /\ candidate_value text pe sp = Some v /\
    forall sp', In sp' sps -> candidate_value text pe sp' <> None ->
                sp <= sp'.
Proof.
  induction 1 as [|sp sps S IH F]; simpl; [discriminate|].
  rewrite Forall_forall in F.
  destruct (candidate_value text pe sp) as [w|] eqn:C.
  - intros [= ->]. exists sp. split; [now left|]. split; [exact C|].
    intros sp' [<-|I] _; [lia|]. apply F in I. lia.
  - intros H. destruct (IH H) as (s0 & I0 & C0 & M). exists s0.
    split; [now right|]. split; [exact C0|].
    intros sp' [<-|I] N; [congruence | now apply M].
Qed.

Lemma first_pair_Some text plen pps sps v :
  StronglySorted lt pps -> StronglySorted lt sps ->
  first_pair text plen pps sps = Some v ->
  exists pp sp, In pp pps /\ In sp sps /\
    candidate_value text (pp + plen) sp = Some v /\
    forall pp' sp', In pp' pps -> In sp' sps ->
      candidate_value text (pp' + plen) sp' <> None ->
      lex_le (pp, sp) (pp', sp').
Proof.
  intros Sp Ss. induction Sp as [|pp pps S IH F]; simpl; [discriminate|].
  rewrite Forall_forall in F.
  destruct (first_candidate text (pp + plen) sps) as [w|] eqn:C.
  - intros [= ->].
    destruct (first_candidate_Some _ _ _ _ Ss C) as (sp & I & Cv & M).
    exists pp, sp. split; [now left|]. split; [exact I|]. split; [exact Cv|].
    intros pp' sp' [<-|J] K N; unfold lex_le; simpl.
    + right. split; [reflexivity | now apply M].
    + left. now apply F.
  - intros H. destruct (IH H) as (p0 & s0 & I0 & J0 & C0 & M).
    exists p0, s0. split; [now right|]. split; [exact J0|].
    split; [exact C0|].
    intros pp' sp' [<-|J] K N.
    + exfalso. apply N. rewrite first_candidate_None in C. now apply C.
    + now apply M.
Qed.

(** The first record of a line comes from the smallest pair, in the
    lexicographic order, that gives a value. *)
Lemma first_record_smallest_pair fname prefix suffix i text r rest :
  fst (scan_line fname prefix suffix i text) = r :: rest ->
  exists pp sp,
    occurs_at text prefix pp /\ occurs_at text suffix sp /\
    candidate_value text (pp + length prefix) sp = Some (time r) /\
    forall pp' sp',
      occurs_at text prefix pp' -> occurs_at text suffix sp' ->
      candidate_value text (pp' + length prefix) sp' <> None ->
      lex_le (pp, sp) (pp', sp').
Proof.
  intros E. pose proof (scan_line_first fname prefix suffix i text) as F.
  rewrite E in F. simpl in F. symmetry in F.
  apply first_pair_Some in F; try apply find_positions_sorted.
  destruct F as (pp & sp & I & J & C & M). exists pp, sp.
  rewrite find_positions_In in I, J.
  split; [exact I|]. split; [exact J|]. split; [exact C|].
  intros pp' sp' I' J' D. apply M; try (now apply find_positions_In).
  exact D.
Qed.

(** C8.  A pair whose stripped text between holds no digit gives no
    value and does not end the scan: a line yields no record exactly
    when no pair of a prefix occurrence and a suffix occurrence gives a
    value, so that a line whose candidate pairs all lack digits yields
    none, and a pair with digits met after one without still gives its
    record.  The line "start:end" with prefix "start:" and suffix ":end"
    yields none. *)
Theorem no_digits_no_record :
  (forall text pe sp,
      existsb Py.isdigit (between text pe sp) = false ->
      candidate_value text pe sp = None) /\
  (forall fname prefix suffix i text,
      fst (scan_line fname prefix suffix i text) = [] <->
      forall pp sp,
        occurs_at text prefix pp -> occurs_at text suffix sp ->
        candidate_value text (pp + length prefix) sp = None) /\
  (forall fname prefix suffix i text,
      (forall pp sp,
          occurs_at text prefix pp -> occurs_at text suffix sp ->
          pp + length prefix <= sp ->
          existsb Py.isdigit (between text (pp + length prefix) sp) = false) ->
      fst (scan_line fname prefix suffix i text) = []) /\
  fst (extract (py "start:end") (py "start:") (py ":end") (py "f")) = [] /\
  map time (fst (extract (py "A x B 7 B") (py "A") (py "B") (py "f"))) = [7%Z].
Proof.
  assert (N : forall fname prefix suffix i text,
             fst (scan_line fname prefix suffix i text) = [] <->
             forall pp sp,
               occurs_at text prefix pp -> occurs_at text suffix sp ->
               candidate_value text (pp + length prefix) sp = None).
  { intros fname prefix suffix i text.
    pose proof (scan_line_first fname prefix suffix i text) as F.
    assert (N : fst (scan_line fname prefix suffix i text) = [] <->
                first_pair text (length prefix) (find_positions text prefix)
                           (find_positions text suffix) = None).
    { rewrite <- F.
      destruct (fst (scan_line fname prefix suffix i text)); simpl;
        split; congruence. }
    rewrite N, first_pair_None. split.
    - intros H pp sp I J. apply H; now apply find_positions_In.
    - intros H pp sp I J. apply H; now apply find_positions_In. }
  split; [exact candidate_value_no_digit|]. split; [exact N|].
  split; [|split; reflexivity].
  intros fname prefix suffix i text H. apply N. intros pp sp I J.
  destruct (Nat.le_gt_cases (pp + length prefix) sp) as [L|L].
  - apply candidate_value_no_digit. now apply H.
  - now apply candidate_value_not_candidate.
Qed.

(** ** Stripping and splitting *)

Lemma leading_space_lstrip s : s = leading_space s ++ Py.lstrip s.
Proof.
  induction s as [|c t IH]; simpl; [reflexivity|].
  destruct (Py.isspace c); simpl; [now rewrite <- IH | reflexivity].
Qed.

Lemma leading_space_all s : all_space (leading_space s).
Proof.
  induction s as [|c t IH]; simpl; [constructor|].
  destruct (Py.isspace c) eqn:E; constructor; assumption.
Qed.

Lemma rstrip_trailing s :
  exists u, all_space u /\ s = Py.rstrip s ++ u.
Proof.
  exists (rev (leading_space (rev s))). split.
  - apply Forall_rev, leading_space_all.
  - unfold Py.rstrip. rewrite <- rev_app_distr, <- leading_space_lstrip.
    now rewrite rev_involutive.
Qed.

Lemma split_newline_cons s : exists l ls, Py.split_newline s = l :: ls.
Proof.
  induction s as [|c t (l & ls & E)]; simpl; [now eauto|].
  destruct (Ascii.eqb c Py.newline); [now eauto|].
  rewrite E. eauto.
Qed.

Lemma split_newline_head_space u :
  all_space u ->
  exists l ls, Py.split_newline u = l :: ls /\ all_space l.
Proof.
  induction 1 as [|c t C F (l & ls & E & A)]; simpl.
  - exists [], []. split; [reflexivity | constructor].
  - destruct (Ascii.eqb c Py.newline).
    + exists [], (l :: ls). rewrite E. split; [reflexivity | constructor].
    + rewrite E. exists (c :: l), ls. split; [reflexivity|].
      constructor; assumption.
Qed.

(** Whitespace after the text leaves every line where it is. *)
Lemma split_newline_trailing core u j text :
  all_space u ->
  nth_error (Py.split_newline core) j = Some text ->
  exists ws, all_space ws /\
             nth_error (Py.split_newline (core ++ u)) j = Some (text ++ ws).
Proof.
  intros U. revert j text; induction core as [|c t IH]; intros j text; simpl.
  - destruct (split_newline_head_space u U) as (l & ls & E & A).
    destruct j as [|[|j]]; simpl; try discriminate.
    intros [= <-]. exists l. rewrite E. now split.
  - destruct (Ascii.eqb c Py.newline).
    + destruct j as [|j]; simpl.
      * intros [= <-]. exists []. split; [constructor | reflexivity].
      * apply IH.
    + destruct (split_newline_cons t) as (l & ls & E).
      destruct (split_newline_cons (t ++ u)) as (l' & ls' & E').
      rewrite E, E'. rewrite E, E' in IH.
      destruct j as [|j]; simpl.
      * intros [= <-]. destruct (IH 0 l eq_refl) as (ws & A & N).
        simpl in N. injection N as ->. exists ws. now split.
      * intros N. exact (IH (S j) text N).
Qed.

(** Whitespace before the text moves every line down by the number of
    newlines in it. *)
Lemma split_newline_leading w rest j text :
  all_space w ->
  nth_error (Py.split_newline rest) j = Some text ->
  exists ws, all_space ws /\
    nth_error (Py.split_newline (w ++ rest))
              (j + count_occ ascii_dec w Py.newline) = Some (ws ++ text).
Proof.
  intros W N. induction W as [|c t C F IH]; simpl.
  - exists []. rewrite Nat.add_0_r. split; [constructor | exact N].
  - destruct IH as (ws & A & E).
    destruct (ascii_dec c Py.newline) as [->|D].
    + rewrite Ascii.eqb_refl. rewrite Nat.add_succ_r. simpl.
      exists ws. now split.
    + apply Ascii.eqb_neq in D. rewrite D.
      destruct (split_newline_cons (t ++ rest)) as (l & ls & S).
      rewrite S in *.
      destruct (j + count_occ ascii_dec t Py.newline) as [|k]; simpl in *.
      * injection E as ->. exists (c :: ws). split; [|reflexivity].
        constructor; assumption.
      * exists ws. now split.
Qed.

(** Line [j] of the stripped content is line [j + leading_newlines] of the
    content, up to whitespace around it. *)
Lemma content_lines_original content j text :
  nth_error (content_lines content) j = Some text ->
  exists ws1 ws2,
    all_space ws1 /\ all_space ws2 /\
    nth_error (Py.split_newline content) (j + leading_newlines content)
    = Some (ws1 ++ text ++ ws2).
Proof.
  unfold content_lines, Py.strip, leading_newlines. intros N.
  destruct (rstrip_trailing (Py.lstrip content)) as (u & U & E).
  destruct (split_newline_trailing _ u j text U N) as (ws2 & A2 & N2).
  rewrite <- E in N2.
  destruct (split_newline_leading (leading_space content) _ j _
              (leading_space_all content) N2) as (ws1 & A1 & N1).
  rewrite <- leading_space_lstrip in N1. now exists ws1, ws2.
Qed.

(** ** The records of a file *)

Lemma scan_suffixes_records fname i text pe sps found info :
  Forall (record_of_line fname i text)
         (fst (fst (scan_suffixes fname i text pe sps found info))).
Proof.
  induction sps as [|sp sps IH]; simpl; [constructor|].
  assert (Forall (record_of_line fname i text)
            (fst (fst (if found then ([], found, info)
                       else scan_suffixes fname i text pe sps found info))))
    as Next by (destruct found; [constructor | exact IH]).
  destruct (pe <=? sp); [|exact Next].
  destruct (Py.re_search_digits (between text pe sp)) as [m|]; [|exact Next].
  destruct (Py.int_of_match m); [|exact Next].
  simpl. constructor; [|constructor]. now unfold record_of_line.
Qed.

Lemma scan_prefixes_records fname i text plen pps sps found info :
  Forall (record_of_line fname i text)
         (fst (fst (scan_prefixes fname i text plen pps sps found info))).
Proof.
  revert found info; induction pps as [|pp pps IH]; intros found info; simpl;
    [constructor|].
  pose proof (scan_suffixes_records fname i text (pp + plen) sps found info)
    as A.
  destruct (scan_suffixes fname i text (pp + plen) sps found info)
    as [[recs found1] info1].
  specialize (IH found1 info1).
  destruct (scan_prefixes fname i text plen pps sps found1 info1)
    as [[recs' found2] info2].
  simpl in *. apply Forall_app. now split.
Qed.

Lemma scan_line_records fname prefix suffix i text :
  Forall (record_of_line fname i text)
         (fst (scan_line fname prefix suffix i text)).
Proof.
  unfold scan_line.
  destruct (Py.contains prefix text && Py.contains suffix text);
    [|constructor].
  match goal with
  | |- context [scan_prefixes ?a ?b ?c ?d ?e ?f ?h ?g] =>
    pose proof (scan_prefixes_records a b c d e f h g) as E;
    destruct (scan_prefixes a b c d e f h g) as [[recs fd] info2]
  end.
  exact E.
Qed.

Lemma scan_lines_cons fname prefix suffix i text rest :
  fst (scan_lines fname prefix suffix i (text :: rest)) =
  fst (scan_line fname prefix suffix i text)
  ++ fst (scan_lines fname prefix suffix (S i) rest).
Proof.
  simpl. destruct (scan_line fname prefix suffix i text).
  now destruct (scan_lines fname prefix suffix (S i) rest).
Qed.

Lemma scan_lines_from fname prefix suffix done lines :
  Forall (extracted_from (done ++ lines) fname prefix suffix)
         (fst (scan_lines fname prefix suffix (length done) lines)).
Proof.
  revert done; induction lines as [|text rest IH]; intros done;
    [constructor|].
  rewrite scan_lines_cons. apply Forall_app. split.
  - pose proof (scan_line_records fname prefix suffix (length done) text) as R.
    rewrite Forall_forall in *. intros r I.
    destruct (R r I) as (_ & L & _).
    unfold extracted_from. rewrite L.
    replace (length done + 1 - 1) with (length done) by lia.
    split; [lia|]. exists text. split; [|exact I].
    rewrite nth_error_app2 by lia. now rewrite Nat.sub_diag.
  - specialize (IH (done ++ [text])).
    rewrite <- app_assoc, length_app in IH. simpl in IH.
    now rewrite Nat.add_1_r in IH.
Qed.

(** X15.  The numbers of the records count the lines of the content
    stripped of leading and trailing whitespace (line 79): every record
    carries the 1-indexed position, in that list, of the line it was
    extracted from, and line [j] of that list is line [j + m] of the
    content split on newline, up to whitespace around it, where [m] is
    the number of newlines in the leading whitespace of the content. *)
Theorem line_number_in_stripped_content content prefix suffix fname :
  Forall (extracted_from (Py.split_newline (Py.strip content))
                         fname prefix suffix)
         (fst (extract content prefix suffix fname)) /\
  forall j text,
    nth_error (Py.split_newline (Py.strip content)) j = Some text ->
    exists ws1 ws2,
      all_space ws1 /\ all_space ws2 /\
      nth_error (Py.split_newline content) (j + leading_newlines content)
      = Some (ws1 ++ text ++ ws2).
Proof.
  split.
  - exact (scan_lines_from fname prefix suffix [] (content_lines content)).
  - exact (content_lines_original content).
Qed.

Lemma line_number_witness :
  nth_error (Py.split_newline (Py.strip (Py.newline :: py "A5B"))) 0
  = Some (py "A5B") /\
  exists ws1 ws2,
    all_space ws1 /\ all_space ws2 /\
    nth_error (Py.split_newline (Py.newline :: py "A5B")) (0 + 1)
    = Some (ws1 ++ py "A5B" ++ ws2).
Proof.
  split; [reflexivity|].
  apply (proj2 (line_number_in_stripped_content
                  (Py.newline :: py "A5B") (py "A") (py "B") (py "f"))
               0 (py "A5B")).
  reflexivity.
Defined.

Lemma StronglySorted_app {A} (R : A -> A -> Prop) l1 l2 :
  StronglySorted R l1 -> StronglySorted R l2 ->
  (forall a b, In a l1 -> In b l2 -> R a b) ->
  StronglySorted R (l1 ++ l2).
Proof.
  induction 1 as [|a l1 S IH F]; intros S2 H; simpl; [exact S2|].
  constructor.
  - apply IH; [exact S2|]. intros; apply H; simpl; auto.
  - apply Forall_app. split; [exact F|].
    apply Forall_forall. intros b I. apply H; simpl; auto.
Qed.

Lemma Forall_eq_sorted (l : list TimeRecord) n :
  Forall (fun r => line_num r = n) l -> StronglySorted line_num_le l.
Proof.
  induction 1 as [|r l E F IH]; constructor; [exact IH|].
  eapply Forall_impl; [|exact F]. unfold line_num_le. simpl. intros; lia.
Qed.

Lemma scan_lines_sorted fname prefix suffix i lines :
  StronglySorted line_num_le (fst (scan_lines fname prefix suffix i lines)) /\
  Forall (fun r => i + 1 <= line_num r)
         (fst (scan_lines fname prefix suffix i lines)).
Proof.
  revert i; induction lines as [|text rest IH]; intros i;
    [split; constructor|].
  rewrite scan_lines_cons. destruct (IH (S i)) as [S1 F1].
  assert (Forall (fun r => line_num r = i + 1)
                 (fst (scan_line fname prefix suffix i text))) as E.
  { eapply Forall_impl; [|apply scan_line_records].
    unfold record_of_line. simpl. tauto. }
  split.
  - apply StronglySorted_app; [eapply Forall_eq_sorted; exact E | exact S1 |].
    rewrite Forall_forall in E, F1. intros a b Ia Ib.
    unfold line_num_le. rewrite (E a Ia). specialize (F1 b Ib). simpl in F1.
    lia.
  - apply Forall_app. split.
    + eapply Forall_impl; [|exact E]. simpl. intros; lia.
    + eapply Forall_impl; [|exact F1]. simpl. intros; lia.
Qed.

(** C10.  The records of a file come in the order of their lines: the
    line number of a record is at most that of every later record. *)
Theorem records_ordered_by_line content prefix suffix fname :
  StronglySorted line_num_le (fst (extract content prefix suffix fname)).
Proof. apply scan_lines_sorted. Qed.

(** C2.  On the content made of a blank line and then "A5B", with
    prefix "A" and suffix "B", the record carries the line number 1,
    while its line is the second line of the content: the numbers count
    the lines of the stripped content, not those of the file. *)
Lemma line_number_not_in_original_content :
  let content := Py.newline :: py "A5B" in
  map line_num (fst (extract content (py "A") (py "B") (py "f"))) = [1] /\
  nth_error (Py.split_newline content) 0 = Some [] /\
  nth_error (Py.split_newline content) 1 = Some (py "A5B") /\
  ~ Forall (extracted_from (Py.split_newline content)
                           (py "f") (py "A") (py "B"))
           (fst (extract content (py "A") (py "B") (py "f"))).
Proof.
  cbv zeta. repeat split; try reflexivity.
  intros F.
  assert (E : fst (extract (Py.newline :: py "A5B") (py "A") (py "B") (py "f"))
              = [mkTime (py "f") 1 5 (py "A5B")]) by reflexivity.
  rewrite E in F. inversion F as [|r l H _]; subst.
  destruct H as (_ & text & N & I). simpl in N. injection N as <-.
  exact I.
Qed.

(** C1.  On the line "AA5B" with prefix "A" and suffix "B" the scan emits
    two records: the test of [found] sits in the inner loop, so the outer
    loop goes on to the prefix occurrence at 1 after the one at 0 has
    matched. *)
Theorem two_records_from_one_line :
  find_positions (py "AA5B") (py "A") = [0; 1] /\
  find_positions (py "AA5B") (py "B") = [3] /\
  fst (extract (py "AA5B") (py "A") (py "B") (py "f")) =
  [mkTime (py "f") 1 5 (py "AA5B"); mkTime (py "f") 1 5 (py "AA5B")].
Proof. repeat split; reflexivity. Qed.

(** C3.  On the line "A1A2B" with prefix "A" and suffix "B" the candidate
    pairs with digits are (0, 4) and (2, 4); the scan extracts from both,
    the value 1 and then the value 2.  On "A 5 B A 9 B" it extracts 5
    alone. *)
Theorem second_pair_also_extracted :
  find_positions (py "A1A2B") (py "A") = [0; 2] /\
  find_positions (py "A1A2B") (py "B") = [4] /\
  candidate_value (py "A1A2B") (0 + 1) 4 = Some 1%Z /\
  candidate_value (py "A1A2B") (2 + 1) 4 = Some 2%Z /\
  map time (fst (extract (py "A1A2B") (py "A") (py "B") (py "f")))
  = [1%Z; 2%Z] /\
  map time (fst (extract (py "A 5 B A 9 B") (py "A") (py "B") (py "f")))
  = [5%Z].
Proof. repeat split; reflexivity. Qed.

(** ** Files that cannot be read *)

Section WorldFacts.

Variable basename : str -> str.
Variable read_file : str -> option str.
Variable glob : str -> list str.
Variable isfile : str -> bool.
Variable file_ext : str -> str.
Variable isdir : str -> bool.
Variable export_to_excel :
  list TimeRecord -> Statistics -> list (str * Statistics) ->
  str -> str -> bool.

Lemma extract_files_times all_files prefix suffix all_times all_debug_info :
  fst (extract_files basename read_file all_files prefix suffix
                     all_times all_debug_info) =
  all_times
  ++ flat_map (fun f => fst (extract_times_from_file basename read_file
                                                     f prefix suffix))
              all_files.
Proof.
  revert all_times all_debug_info.
  induction all_files as [|f rest IH]; intros all_times all_debug_info;
    simpl; [now rewrite app_nil_r|].
  destruct (extract_times_from_file basename read_file f prefix suffix)
    as [times debug_info].
  rewrite IH. simpl. now rewrite app_assoc.
Qed.

Lemma extract_times_from_directory_times log_dir prefix suffix :
  fst (extract_times_from_directory basename read_file glob isfile file_ext
                                    log_dir prefix suffix) =
  flat_map (fun f => fst (extract_times_from_file basename read_file
                                                  f prefix suffix))
           (get_all_files glob isfile file_ext log_dir).
Proof.
  unfold extract_times_from_directory.
  destruct (get_all_files glob isfile file_ext log_dir) as [|f rest] eqn:E;
    [reflexivity|].
  now rewrite extract_files_times.
Qed.

(** C9.  A file whose reading fails yields two empty lists, and the
    records of the directory are those of the other files, in their
    order. *)
Theorem unreadable_file_contributes_nothing
    log_dir prefix suffix before log_file after :
  read_file log_file = None ->
  get_all_files glob isfile file_ext log_dir = before ++ log_file :: after ->
  extract_times_from_file basename read_file log_file prefix suffix
  = ([], []) /\
  fst (extract_times_from_directory basename read_file glob isfile file_ext
                                    log_dir prefix suffix) =
  flat_map (fun f => fst (extract_times_from_file basename read_file
                                                  f prefix suffix))
           (before ++ after).
Proof.
  intros R G.
  assert (E : extract_times_from_file basename read_file log_file
                                      prefix suffix = ([], []))
    by (unfold extract_times_from_file; now rewrite R).
  split; [exact E|].
  rewrite extract_times_from_directory_times, G.
  rewrite !flat_map_app. simpl. now rewrite E.
Qed.

(** C7.  When the extraction of the directory gives no record, the
    statistics of the records are the zero statistics, the per-file
    dict is empty and the exit status is 0. *)
Theorem no_record_is_success log_dir prefix suffix :
  isdir log_dir = true -> prefix <> [] -> suffix <> [] ->
  let times :=
    fst (extract_times_from_directory basename read_file glob isfile file_ext
                                      log_dir prefix suffix) in
  times = [] ->
  (exists s,
      calculate_statistics times = Some s /\
      st_count s = 0 /\ st_min s = 0%Z /\ st_max s = 0%Z /\
      st_avg s = 0%Q /\ st_median s = 0%Q /\
      st_p90 s = 0%Q /\ st_p95 s = 0%Q /\ st_p99 s = 0%Q) /\
  group_by_file times = Some [] /\
  main basename read_file glob isfile file_ext isdir export_to_excel
       log_dir prefix suffix = 0%Z.
Proof.
  intros D P S times E. split; [|split].
  - rewrite E. exists zero_statistics. repeat split.
  - now rewrite E.
  - unfold main. rewrite D. simpl.
    destruct prefix as [|a p]; [congruence|].
    destruct suffix as [|b q]; [congruence|].
    subst times.
    destruct (extract_times_from_directory basename read_file glob isfile
                file_ext
                log_dir (a :: p) (b :: q)) as [t d].
    simpl in E. now rewrite E.
Qed.

End WorldFacts.

Lemma unreadable_file_witness :
  sample_read (py "a.log") = None /\
  get_all_files sample_glob sample_isfile sample_ext []
  = [] ++ py "a.log" :: [py "b.log"] /\
  extract_times_from_file sample_basename sample_read (py "a.log")
                          (py "x=") (py "ms") = ([], []) /\
  fst (extract_times_from_directory sample_basename sample_read sample_glob
                                    sample_isfile sample_ext
                                    [] (py "x=") (py "ms")) =
  flat_map (fun f => fst (extract_times_from_file sample_basename sample_read
                                                  f (py "x=") (py "ms")))
           ([] ++ [py "b.log"]).
Proof.
  split; [reflexivity|]. split; [reflexivity|].
  apply (unreadable_file_contributes_nothing
           sample_basename sample_read sample_glob sample_isfile sample_ext
           [] (py "x=") (py "ms") [] (py "a.log") [py "b.log"]);
    reflexivity.
Defined.

Lemma no_record_witness :
  fst (extract_times_from_directory sample_basename sample_read sample_glob
                                    sample_isfile sample_ext
                                    [] (py "y=") (py "ms")) = [] /\
  main sample_basename sample_read sample_glob sample_isfile sample_ext
       sample_isdir sample_export [] (py "y=") (py "ms") = 0%Z.
Proof.
  split; [reflexivity|].
  apply (no_record_is_success
           sample_basename sample_read sample_glob sample_isfile sample_ext
           sample_isdir sample_export [] (py "y=") (py "ms"));
    try reflexivity; discriminate.
Defined.

(** ** Aggregation *)

Lemma group_append_values groups k v :
  Permutation (flat_map snd (group_append groups k v))
              (flat_map snd groups ++ [v]).
Proof.
  induction groups as [|[k' values] rest IH]; simpl; [reflexivity|].
  destruct (Py.eqb k' k); simpl.
  - rewrite <- !app_assoc. apply Permutation_app_head.
    apply Permutation_app_comm.
  - rewrite <- app_assoc. now apply Permutation_app_head.
Qed.

Lemma group_append_nonempty groups k v :
  Forall (fun e => snd e <> []) groups ->
  Forall (fun e => snd e <> []) (group_append groups k v).
Proof.
  induction 1 as [|[k' values] rest N F IH]; simpl.
  - constructor; [discriminate | constructor].
  - destruct (Py.eqb k' k); constructor; simpl in *; auto.
    now destruct values.
Qed.

Lemma file_groups_from (times : list TimeRecord) groups :
  let result :=
    fold_left (fun g item => group_append g (file item) (time item))
              times groups in
  Permutation (flat_map snd result) (flat_map snd groups ++ map time times) /\
  (Forall (fun e => snd e <> []) groups ->
   Forall (fun e => snd e <> []) result).
Proof.
  revert groups; induction times as [|r times IH]; intros groups; simpl.
  - rewrite app_nil_r. split; [reflexivity | tauto].
  - destruct (IH (group_append groups (file r) (time r))) as [P N].
    split.
    + etransitivity; [exact P|].
      rewrite (group_append_values groups (file r) (time r)).
      now rewrite <- app_assoc.
    + intros F. now apply N, group_append_nonempty.
Qed.

Lemma summarize_Some values s :
  summarize values = Some s ->
  values <> [] /\ st_count s = length values /\
  py_min values = Some (st_min s) /\ py_max values = Some (st_max s) /\
  st_median s = np_median values /\
  st_p90 s = np_percentile values 90 /\
  st_p95 s = np_percentile values 95 /\
  st_p99 s = np_percentile values 99.
Proof.
  unfold summarize.
  destruct (py_min values) as [lo|] eqn:Mn; [|discriminate].
  destruct (py_max values) as [hi|]; [|discriminate].
  destruct (py_truediv (py_sum values) (Z.of_nat (length values)));
    [|discriminate].
  intros [= <-]. split; [|now repeat split].
  destruct values; [discriminate | discriminate].
Qed.

Lemma calculate_statistics_count times s :
  calculate_statistics times = Some s -> st_count s = length times.
Proof.
  destruct times as [|r rest]; simpl.
  - now intros [= <-].
  - intros E. apply summarize_Some in E. destruct E as (_ & C & _).
    rewrite C. simpl. now rewrite length_map.
Qed.

Lemma group_stats_Some groups stats :
  group_stats groups = Some stats ->
  map fst stats = map fst groups /\
  map (fun e => st_count (snd e)) stats =
  map (fun e => length (snd e)) groups.
Proof.
  revert stats; induction groups as [|[k values] rest IH]; intros stats;
    simpl.
  - now intros [= <-].
  - destruct (summarize values) as [s|] eqn:S; [|discriminate].
    destruct (group_stats rest) as [stats'|]; [|discriminate].
    intros [= <-]. destruct (IH _ eq_refl) as [K L].
    apply summarize_Some in S. destruct S as (_ & C & _).
    simpl. now rewrite K, L, C.
Qed.

Lemma length_flat_map_snd (groups : list (str * list Z)) :
  length (flat_map snd groups)
  = list_sum (map (fun e => length (snd e)) groups).
Proof.
  induction groups as [|[k values] rest IH]; simpl; [reflexivity|].
  now rewrite length_app, IH.
Qed.

(** C5.  The per-file groups of values, taken together, are a
    permutation of the values the overall statistics are computed from.
    When both aggregations return, the per-file statistics have one
    entry per group, with the size of the group as its count, and these
    counts add up to the overall count. *)
Theorem per_file_groups_partition_values times :
  Permutation (flat_map snd (file_groups times)) (map time times) /\
  forall file_stats overall,
    group_by_file times = Some file_stats ->
    calculate_statistics times = Some overall ->
    map fst file_stats = map fst (file_groups times) /\
    map (fun e => st_count (snd e)) file_stats =
    map (fun e => length (snd e)) (file_groups times) /\
    list_sum (map (fun e => st_count (snd e)) file_stats) = st_count overall.
Proof.
  destruct (file_groups_from times []) as [P _]. simpl in P.
  fold (file_groups times) in P.
  split; [exact P|]. intros file_stats overall G C.
  apply group_stats_Some in G. destruct G as [K L].
  split; [exact K|]. split; [exact L|].
  rewrite L, <- length_flat_map_snd, (calculate_statistics_count _ _ C).
  rewrite (Permutation_length P). apply length_map.
Qed.

Lemma per_file_groups_witness :
  Permutation
    (flat_map snd
       (file_groups [mkTime (py "a") 1 5 []; mkTime (py "b") 1 7 [];
                     mkTime (py "a") 2 6 []]))
    [5; 7; 6]%Z /\
  exists file_stats overall,
    group_by_file [mkTime (py "a") 1 5 []; mkTime (py "b") 1 7 [];
                   mkTime (py "a") 2 6 []] = Some file_stats /\
    calculate_statistics [mkTime (py "a") 1 5 []; mkTime (py "b") 1 7 [];
                          mkTime (py "a") 2 6 []] = Some overall /\
    map (fun e => st_count (snd e)) file_stats = [2; 1] /\
    st_count overall = 3.
Proof.
  destruct (per_file_groups_partition_values
              [mkTime (py "a") 1 5 []; mkTime (py "b") 1 7 [];
               mkTime (py "a") 2 6 []]) as [P H].
  split; [exact P|].
  destruct (group_by_file [mkTime (py "a") 1 5 []; mkTime (py "b") 1 7 [];
                           mkTime (py "a") 2 6 []]) as [file_stats|] eqn:G;
    [|discriminate G].
  destruct (calculate_statistics
              [mkTime (py "a") 1 5 []; mkTime (py "b") 1 7 [];
               mkTime (py "a") 2 6 []]) as [overall|] eqn:C;
    [|discriminate C].
  exists file_stats, overall. split; [reflexivity|]. split; [reflexivity|].
  destruct (H file_stats overall eq_refl eq_refl) as (_ & L & S).
  split; [exact L|]. rewrite <- S, L. reflexivity.
Defined.

(** ** Percentiles *)

Ltac qred :=
  unfold Qceiling, Qfloor, Qeq, Qminus, Qplus, Qopp, Qmult, Qdiv, Qinv,
    inject_Z;
  cbn -[Z.mul Z.add Z.sub Z.opp Z.div Z.of_nat].

Lemma insert_sorted_length x l : length (insert_sorted x l) = S (length l).
Proof.
  induction l as [|y t IH]; simpl; [reflexivity|].
  destruct (x <=? y)%Z; simpl; [reflexivity | now rewrite IH].
Qed.

Lemma sort_length values : length (sort values) = length values.
Proof.
  induction values as [|v rest IH]; simpl; [reflexivity|].
  now rewrite insert_sorted_length, IH.
Qed.

Lemma insert_sorted_perm x l : Permutation (x :: l) (insert_sorted x l).
Proof.
  induction l as [|y t IH]; simpl; [reflexivity|].
  destruct (x <=? y)%Z; [reflexivity|].
  etransitivity; [apply perm_swap | now apply perm_skip].
Qed.

Lemma insert_sorted_sorted x l :
  Sorted Z.le l -> Sorted Z.le (insert_sorted x l).
Proof.
  induction 1 as [|y t S IH H]; simpl; [repeat constructor|].
  destruct (x <=? y)%Z eqn:L.
  - apply Z.leb_le in L. repeat constructor; assumption.
  - apply Z.leb_gt in L. constructor; [exact IH|].
    destruct t as [|z t]; simpl.
    + constructor; lia.
    + inversion H; subst. destruct (x <=? z)%Z; constructor; lia.
Qed.

Lemma sort_spec values :
  Sorted Z.le (sort values) /\ Permutation values (sort values).
Proof.
  induction values as [|v rest [S P]]; simpl; [split; constructor|].
  split; [now apply insert_sorted_sorted|].
  etransitivity; [apply perm_skip, P | apply insert_sorted_perm].
Qed.

Lemma rank_floor N count :
  Qfloor (percentile_rank N count) = (N * (Z.of_nat count - 1) / 100)%Z.
Proof. unfold percentile_rank. qred. now rewrite Z.mul_1_r. Qed.

Lemma rank_ceiling N count :
  Qceiling (percentile_rank N count)
  = (- (- (N * (Z.of_nat count - 1)) / 100))%Z.
Proof. unfold percentile_rank. qred. now rewrite Z.mul_1_r. Qed.

Lemma rank_fraction N count :
  (percentile_rank N count - inject_Z (Qfloor (percentile_rank N count))
   == (N * (Z.of_nat count - 1)) mod 100 # 100)%Q.
Proof.
  rewrite rank_floor. unfold percentile_rank. qred.
  pose proof (Z.div_mod (N * (Z.of_nat count - 1)) 100). lia.
Qed.

Lemma virtual_index_rank N count :
  (inject_Z (Z.of_nat count - 1) * (inject_Z N / 100)
   == percentile_rank N count)%Q.
Proof. unfold percentile_rank. ring. Qed.

Lemma interpolate_half (a b : Z) (g : Q) :
  (g == 1 # 2 ->
   inject_Z a + g * (inject_Z b - inject_Z a)
   == (inject_Z a + inject_Z b) / 2)%Q.
Proof. intros ->. field. Qed.

Lemma interpolate_zero (a b : Z) (g : Q) :
  (g == 0 -> inject_Z a + g * (inject_Z b - inject_Z a) == inject_Z a)%Q.
Proof. intros ->. ring. Qed.

(** numpy's method "linear" is the interpolation of the spec. *)
Lemma np_percentile_spec values N :
  values <> [] -> (0 <= N <= 100)%Z ->
  (np_percentile values N == spec_percentile values N)%Q.
Proof.
  intros NE HN. unfold np_percentile, spec_percentile.
  rewrite sort_length.
  assert (1 <= length values) as L
    by (destruct values; simpl; [congruence|lia]).
  set (z := (N * (Z.of_nat (length values) - 1))%Z).
  assert (F : Qfloor (inject_Z (Z.of_nat (length values) - 1)
                      * (inject_Z N / 100))
              = Qfloor (percentile_rank N (length values)))
    by (apply Qfloor_comp, virtual_index_rank).
  rewrite F, virtual_index_rank.
  pose proof (rank_fraction N (length values)) as G. fold z in G.
  rewrite rank_ceiling, rank_floor in *. fold z in G |- *.
  pose proof (Z.div_mod z 100 ltac:(lia)) as DM.
  pose proof (Z.mod_pos_bound z 100 ltac:(lia)) as MB.
  destruct (Z.eq_dec (z mod 100) 0) as [Z0|NZ].
  - rewrite Z0 in G. rewrite G.
    setoid_replace (0 # 100)%Q with 0%Q by reflexivity. ring.
  - assert (C : (- (- z / 100) = z / 100 + 1)%Z).
    { replace (- z / 100)%Z with (- (z / 100 + 1))%Z; [lia|].
      apply Z.div_unique with (r := (100 - z mod 100)%Z); lia. }
    assert (B : (z / 100 + 1 <= Z.of_nat (length values) - 1)%Z).
    { assert (z < 100 * (Z.of_nat (length values) - 1))%Z; [|lia].
      unfold z in *. nia. }
    rewrite C, Z.min_l by exact B. ring.
Qed.

(** The median is the percentile of rank 50. *)
Lemma np_median_spec values :
  values <> [] -> (np_median values == spec_percentile values 50)%Q.
Proof.
  intros NE. unfold np_median, spec_percentile.
  rewrite rank_floor, rank_ceiling, sort_length.
  assert (1 <= length values) as L
    by (destruct values; simpl; [congruence|lia]).
  destruct (Nat.even (length values)) eqn:Ev.
  - apply Nat.even_spec in Ev. destruct Ev as [k Ek]. rewrite Ek.
    replace (2 * k / 2) with k
      by (apply Nat.div_unique with (r := 0); lia).
    replace (50 * (Z.of_nat (2 * k) - 1) / 100)%Z with (Z.of_nat k - 1)%Z
      by (apply Z.div_unique with (r := 50%Z); lia).
    replace (- (50 * (Z.of_nat (2 * k) - 1)) / 100)%Z with (- Z.of_nat k)%Z
      by (apply Z.div_unique with (r := 50%Z); lia).
    replace (Z.to_nat (Z.of_nat k - 1)) with (k - 1) by lia.
    replace (Z.to_nat (- - Z.of_nat k)) with k by lia.
    symmetry. apply interpolate_half.
    unfold percentile_rank. qred. lia.
  - rewrite <- Nat.negb_odd in Ev. apply negb_false_iff in Ev.
    apply Nat.odd_spec in Ev. destruct Ev as [k Ek]. rewrite Ek.
    replace ((2 * k + 1) / 2) with k
      by (apply Nat.div_unique with (r := 1); lia).
    replace (50 * (Z.of_nat (2 * k + 1) - 1) / 100)%Z with (Z.of_nat k)
      by (apply Z.div_unique with (r := 0%Z); lia).
    replace (Z.to_nat (Z.of_nat k)) with k by lia.
    symmetry. apply interpolate_zero.
    unfold percentile_rank. qred. lia.
Qed.

(** C6.  When the statistics of a non-empty list of records are
    returned, their median, p90, p95 and p99 are the percentiles 50, 90,
    95 and 99 of the values under one convention: the value at the
    zero-indexed rank [N/100 * (count - 1)] of the sorted values,
    interpolated linearly between the values at the floor and at the
    ceiling of the rank. *)
Theorem percentiles_share_one_convention times s :
  times <> [] ->
  calculate_statistics times = Some s ->
  (st_median s == spec_percentile (map time times) 50)%Q /\
  (st_p90 s == spec_percentile (map time times) 90)%Q /\
  (st_p95 s == spec_percentile (map time times) 95)%Q /\
  (st_p99 s == spec_percentile (map time times) 99)%Q.
Proof.
  intros NE E.
  assert (S : summarize (map time times) = Some s)
    by (destruct times; [congruence | exact E]).
  destruct (summarize_Some _ _ S) as (NV & _ & _ & _ & M & P90 & P95 & P99).
  rewrite M, P90, P95, P99.
  split; [now apply np_median_spec|].
  split; [|split]; apply np_percentile_spec; try assumption; lia.
Qed.

Lemma percentiles_witness :
  exists s,
    calculate_statistics [mkTime (py "f") 1 4 []; mkTime (py "f") 2 1 [];
                          mkTime (py "f") 3 3 []; mkTime (py "f") 4 2 []]
    = Some s /\
    (st_median s == spec_percentile [4; 1; 3; 2]%Z 50)%Q /\
    (st_median s == 5 # 2)%Q /\ (st_p90 s == 37 # 10)%Q.
Proof.
  destruct (calculate_statistics
              [mkTime (py "f") 1 4 []; mkTime (py "f") 2 1 [];
               mkTime (py "f") 3 3 []; mkTime (py "f") 4 2 []])
    as [s|] eqn:E; [|discriminate E].
  exists s. split; [reflexivity|].
  destruct (percentiles_share_one_convention
              [mkTime (py "f") 1 4 []; mkTime (py "f") 2 1 [];
               mkTime (py "f") 3 3 []; mkTime (py "f") 4 2 []] s)
    as (M & P90 & _); [discriminate | exact E |].
  split; [exact M|]. split.
  - rewrite M. reflexivity.
  - rewrite P90. reflexivity.
Defined.

(** * Further properties of the extractor *)

(** ** What a record holds *)

Lemma take_digits_run s :
  exists post,
    s = Py.take_digits s ++ post /\
    match post with [] => True | c :: _ => Py.isdigit c = false end.
Proof.
  induction s as [|c s (post & E & P)]; simpl.
  - now exists [].
  - destruct (Py.isdigit c) eqn:D.
    + exists post. simpl. now rewrite <- E.
    + exists (c :: s). now split.
Qed.

Lemma re_search_digits_run s m :
  Py.re_search_digits s = Some m -> leftmost_digit_run s m.
Proof.
  induction s as [|c s IH]; simpl; [discriminate|].
  destruct (Py.isdigit c) eqn:D.
  - intros [= <-]. destruct (take_digits_run s) as (post & E & P).
    exists [], post. simpl. rewrite D, take_digits_all, <- E.
    repeat split; try assumption. discriminate.
  - intros H. destruct (IH H) as (pre & post & E & N & M & A & P).
    exists (c :: pre), post. simpl. rewrite D, <- E. now repeat split.
Qed.

Lemma digit_value_nonneg c :
  Py.isdigit c = true -> (0 <= Py.digit_value c <= 9)%Z.
Proof.
  unfold Py.isdigit, Py.digit_value. cbv zeta. intros H.
  apply andb_true_iff in H. destruct H as [A B].
  apply Nat.leb_le in A. apply Nat.leb_le in B. lia.
Qed.

Lemma int_of_match_nonneg m v : Py.int_of_match m = Some v -> (0 <= v)%Z.
Proof.
  unfold Py.int_of_match. destruct m as [|c m]; [discriminate|].
  destruct (forallb Py.isdigit (c :: m)) eqn:A; [|discriminate].
  destruct (length (c :: m) <=? Py.int_max_str_digits); [|discriminate].
  cbn [andb]. intros H.
  assert (E : v = fold_left (fun a x => 10 * a + Py.digit_value x)%Z
                            (c :: m) 0%Z) by congruence.
  rewrite E. clear H E.
  assert (G : forall l acc, forallb Py.isdigit l = true -> (0 <= acc)%Z ->
            (0 <= fold_left (fun a x => 10 * a + Py.digit_value x) l acc)%Z).
  { induction l as [|x l IH]; intros acc F Hacc; cbn [fold_left];
      [exact Hacc|].
    simpl in F. apply andb_true_iff in F. destruct F as [Dx F].
    apply IH; [exact F|]. pose proof (digit_value_nonneg x Dx). lia. }
  apply (G (c :: m)); [exact A | lia].
Qed.

Lemma candidate_value_Some text pe sp v :
  candidate_value text pe sp = Some v ->
  pe <= sp /\
  exists m, leftmost_digit_run (between text pe sp) m /\
            Py.int_of_match m = Some v.
Proof.
  unfold candidate_value. destruct (pe <=? sp) eqn:L; [|discriminate].
  apply Nat.leb_le in L.
  destruct (Py.re_search_digits (between text pe sp)) as [m|] eqn:R;
    [|discriminate].
  intros I. split; [exact L|]. exists m. split; [|exact I].
  now apply re_search_digits_run.
Qed.

Lemma scan_suffixes_sound fname i text pe sps found info :
  let recs := fst (fst (scan_suffixes fname i text pe sps found info)) in
  length recs <= 1 /\
  Forall (fun r => exists sp, In sp sps /\
                              candidate_value text pe sp = Some (time r)) recs.
Proof.
  induction sps as [|sp sps [IL IF]]; simpl; [split; [lia | constructor]|].
  assert (Next :
    let recs := fst (fst (if found then ([], found, info)
                          else scan_suffixes fname i text pe sps found info)) in
    length recs <= 1 /\
    Forall (fun r => exists sp0, (sp = sp0 \/ In sp0 sps) /\
                       candidate_value text pe sp0 = Some (time r)) recs).
  { destruct found; simpl; [split; [lia | constructor]|].
    split; [exact IL|]. eapply Forall_impl; [|exact IF].
    simpl. intros r (s0 & I & C). eauto. }
  unfold candidate_value at 1. unfold candidate_value in Next at 1.
  pose proof (fun s0 => eq_refl (candidate_value text pe s0)) as _.
  destruct (pe <=? sp) eqn:L; [|exact Next].
  destruct (Py.re_search_digits (between text pe sp)) as [m|] eqn:R;
    [|exact Next].
  destruct (Py.int_of_match m) as [v|] eqn:I; [|exact Next].
  simpl. split; [lia|]. constructor; [|constructor].
  exists sp. split; [now left|]. simpl.
  unfold candidate_value. now rewrite L, R, I.
Qed.

Lemma scan_prefixes_sound fname i text plen pps sps found info :
  let recs := fst (fst (scan_prefixes fname i text plen pps sps found info)) in
  length recs <= length pps /\
  Forall (fun r => exists pp sp,
            In pp pps /\ In sp sps /\
            candidate_value text (pp + plen) sp = Some (time r)) recs.
Proof.
  revert found info; induction pps as [|pp pps IH]; intros found info; simpl;
    [split; [lia | constructor]|].
  pose proof (scan_suffixes_sound fname i text (pp + plen) sps found info)
    as [L1 F1].
  destruct (scan_suffixes fname i text (pp + plen) sps found info)
    as [[recs found1] info1].
  destruct (IH found1 info1) as [L2 F2].
  destruct (scan_prefixes fname i text plen pps sps found1 info1)
    as [[recs' found2] info2].
  simpl in *. rewrite length_app. split; [lia|].
  apply Forall_app. split.
  - eapply Forall_impl; [|exact F1]. simpl. intros r (s0 & I & C).
    exists pp, s0. auto.
  - eapply Forall_impl; [|exact F2]. simpl. intros r (p0 & s0 & I & J & C).
    exists p0, s0. auto.
Qed.

Lemma scan_line_sound fname prefix suffix i text :
  let recs := fst (scan_line fname prefix suffix i text) in
  length recs <= length (find_positions text prefix) /\
  Forall (fun r => value_between text prefix suffix (time r)) recs.
Proof.
  unfold scan_line.
  destruct (Py.contains prefix text && Py.contains suffix text);
    [|split; [simpl; lia | constructor]].
  match goal with
  | |- context [scan_prefixes ?a ?b ?c ?d ?e ?f ?h ?g] =>
    pose proof (scan_prefixes_sound a b c d e f h g) as [L F];
    destruct (scan_prefixes a b c d e f h g) as [[recs fd] info2]
  end.
  simpl in *. split; [exact L|].
  eapply Forall_impl; [|exact F]. simpl. intros r (pp & sp & I & J & C).
  apply candidate_value_Some in C. destruct C as (Le & m & Run & V).
  exists pp, sp, m. rewrite <- !find_positions_In. now repeat split.
Qed.

(** X1.  Every record of a file was read on its own line: its value is
    the decimal reading of the leftmost maximal run of digits of the
    stripped text between an occurrence of the prefix and a later
    occurrence of the suffix on the line its number names, and it is not
    negative. *)
Theorem record_values_sound content prefix suffix fname :
  Forall (fun r =>
            1 <= line_num r <= length (content_lines content) /\
            file r = fname /\
            (0 <= time r)%Z /\
            exists text,
              nth_error (content_lines content) (line_num r - 1) = Some text /\
              line r = Py.strip text /\
              value_between text prefix suffix (time r))
         (fst (extract content prefix suffix fname)).
Proof.
  pose proof (scan_lines_from fname prefix suffix [] (content_lines content))
    as F.
  simpl in F. fold (extract content prefix suffix fname) in F.
  eapply Forall_impl; [|exact F]. simpl.
  intros r (L1 & text & N & I).
  pose proof (scan_line_records fname prefix suffix (line_num r - 1) text) as R.
  pose proof (scan_line_sound fname prefix suffix (line_num r - 1) text)
    as [_ S].
  rewrite Forall_forall in R, S.
  destruct (R r I) as (Rf & _ & Rl). specialize (S r I).
  assert (line_num r - 1 < length (content_lines content))
    by (apply nth_error_Some; congruence).
  split; [lia|]. split; [exact Rf|]. split.
  - destruct S as (pp & sp & m & _ & _ & _ & _ & V).
    exact (int_of_match_nonneg _ _ V).
  - exists text. now repeat split.
Qed.

(** X2.  A line yields at most as many records as the prefix has
    occurrences on it; with a single occurrence it yields at most one. *)
Theorem records_per_line_bounded fname prefix suffix i text :
  length (fst (scan_line fname prefix suffix i text))
  <= length (find_positions text prefix) /\
  ((forall p q, occurs_at text prefix p -> occurs_at text prefix q -> p = q) ->
   length (fst (scan_line fname prefix suffix i text)) <= 1).
Proof.
  destruct (scan_line_sound fname prefix suffix i text) as [L _].
  split; [exact L|]. intros U.
  pose proof (find_positions_sorted text prefix) as S.
  destruct (find_positions text prefix) as [|p [|q l]] eqn:E;
    simpl in L; try lia.
  exfalso. inversion S as [|? ? _ F]; subst.
  rewrite Forall_forall in F. specialize (F q (or_introl eq_refl)).
  assert (p = q); [|lia].
  apply U; apply find_positions_In; rewrite E; simpl; auto.
Qed.

Lemma records_per_line_witness :
  length (fst (scan_line (py "f") (py "A") (py "B") 0 (py "xA5B7B"))) <= 1.
Proof.
  apply (records_per_line_bounded (py "f") (py "A") (py "B") 0 (py "xA5B7B")).
  intros p q Hp Hq.
  apply find_positions_In in Hp, Hq. simpl in Hp, Hq.
  destruct Hp as [<-|[]], Hq as [<-|[]]. reflexivity.
Defined.

(** X3.  When a line yields records, the first one is read at the
    smallest pair, in the lexicographic order, of a prefix occurrence and
    a later suffix occurrence whose stripped text between holds a run of
    digits that [int] converts: its first run of digits has at most
    [int_max_str_digits] digits. *)
Theorem first_record_at_smallest_pair fname prefix suffix i text r rest :
  fst (scan_line fname prefix suffix i text) = r :: rest ->
  exists pp sp,
    occurs_at text prefix pp /\ occurs_at text suffix sp /\
    pp + length prefix <= sp /\
    candidate_value text (pp + length prefix) sp = Some (time r) /\
    forall pp' sp' m,
      occurs_at text prefix pp' -> occurs_at text suffix sp' ->
      pp' + length prefix <= sp' ->
      Py.re_search_digits (between text (pp' + length prefix) sp') = Some m ->
      length m <= Py.int_max_str_digits ->
      lex_le (pp, sp) (pp', sp').
Proof.
  intros E. pose proof (scan_line_first fname prefix suffix i text) as F.
  rewrite E in F. simpl in F. symmetry in F.
  apply first_pair_Some in F; try apply find_positions_sorted.
  destruct F as (pp & sp & I & J & C & M). exists pp, sp.
  rewrite find_positions_In in I, J.
  split; [exact I|]. split; [exact J|].
  split; [exact (proj1 (candidate_value_Some _ _ _ _ C))|].
  split; [exact C|].
  intros pp' sp' m I' J' L R Lm. apply M; try (now apply find_positions_In).
  apply candidate_value_converts. split; [exact L|]. now exists m.
Qed.

Lemma first_record_witness :
  exists pp sp,
    occurs_at (py "A x B 7 B") (py "A") pp /\
    occurs_at (py "A x B 7 B") (py "B") sp /\
    pp + 1 <= sp /\
    candidate_value (py "A x B 7 B") (pp + 1) sp = Some 7%Z /\
    forall pp' sp' m,
      occurs_at (py "A x B 7 B") (py "A") pp' ->
      occurs_at (py "A x B 7 B") (py "B") sp' ->
      pp' + 1 <= sp' ->
      Py.re_search_digits (between (py "A x B 7 B") (pp' + 1) sp') = Some m ->
      length m <= Py.int_max_str_digits ->
      lex_le (pp, sp) (pp', sp').
Proof.
  apply (first_record_at_smallest_pair
           (py "f") (py "A") (py "B") 0 (py "A x B 7 B")
           (mkTime (py "f") 1 7 (py "A x B 7 B")) []).
  reflexivity.
Defined.

(** ** The debugging information *)

Lemma last_time_app r1 r2 :
  last_time (r1 ++ r2) =
  match last_time r2 with Some v => Some v | None => last_time r1 end.
Proof.
  unfold last_time. rewrite map_app.
  induction r2 as [|r r2 IH] using rev_ind.
  - simpl. rewrite app_nil_r. reflexivity.
  - rewrite map_app, app_assoc. simpl. now rewrite !last_last.
Qed.

Lemma info_after_refl info : info_after info [] info.
Proof. unfold info_after. now repeat split. Qed.

Lemma info_after_trans i0 r1 i1 r2 i2 :
  info_after i0 r1 i1 -> info_after i1 r2 i2 -> info_after i0 (r1 ++ r2) i2.
Proof.
  unfold info_after.
  intros (A1 & A2 & A3 & A4 & A5 & A6 & A7 & A8)
         (B1 & B2 & B3 & B4 & B5 & B6 & B7 & B8).
  rewrite last_time_app.
  repeat split; try congruence.
  - rewrite B7. destruct r1, r2; simpl; congruence.
  - rewrite B8. destruct (last_time r2); congruence.
Qed.

Lemma scan_suffixes_info fname i text pe sps found info :
  let '(recs, found', info') :=
    scan_suffixes fname i text pe sps found info in
  info_after info recs info' /\
  found' = match recs with [] => found | _ :: _ => true end.
Proof.
  induction sps as [|sp sps IH]; simpl;
    [split; [apply info_after_refl|reflexivity]|].
  assert (Next :
    let '(recs, found', info') :=
      if found then ([], found, info)
      else scan_suffixes fname i text pe sps found info in
    info_after info recs info' /\
    found' = match recs with [] => found | _ :: _ => true end).
  { destruct found; [split; [apply info_after_refl|reflexivity] | exact IH]. }
  destruct (pe <=? sp); [|exact Next].
  destruct (Py.re_search_digits (between text pe sp)) as [m|]; [|exact Next].
  destruct (Py.int_of_match m) as [v|]; [|exact Next].
  split; [|reflexivity]. unfold info_after. now repeat split.
Qed.

Lemma scan_prefixes_info fname i text plen pps sps found info :
  let '(recs, found', info') :=
    scan_prefixes fname i text plen pps sps found info in
  info_after info recs info'.
Proof.
  revert found info; induction pps as [|pp pps IH]; intros found info; simpl;
    [apply info_after_refl|].
  pose proof (scan_suffixes_info fname i text (pp + plen) sps found info) as A.
  destruct (scan_suffixes fname i text (pp + plen) sps found info)
    as [[recs found1] info1].
  specialize (IH found1 info1).
  destruct (scan_prefixes fname i text plen pps sps found1 info1)
    as [[recs' found2] info2].
  eapply info_after_trans; [exact (proj1 A) | exact IH].
Qed.

Lemma scan_line_info fname prefix suffix i text :
  let recs := fst (scan_line fname prefix suffix i text) in
  let info := snd (scan_line fname prefix suffix i text) in
  li_line_num info = i + 1 /\ li_line info = text /\
  li_contains_prefix info = Py.contains prefix text /\
  li_contains_suffix info = Py.contains suffix text /\
  (li_matched info = true <-> recs <> []) /\
  li_time_value info = last_time recs /\
  li_prefix_positions info =
  (if Py.contains prefix text && Py.contains suffix text
   then Some (find_positions text prefix) else None) /\
  li_suffix_positions info =
  (if Py.contains prefix text && Py.contains suffix text
   then Some (find_positions text suffix) else None).
Proof.
  unfold scan_line.
  destruct (Py.contains prefix text && Py.contains suffix text); simpl.
  - match goal with
    | |- context [scan_prefixes ?a ?b ?c ?d ?e ?f ?h ?g] =>
      pose proof (scan_prefixes_info a b c d e f h g) as A;
      destruct (scan_prefixes a b c d e f h g) as [[recs fd] info2]
    end.
    destruct A as (A1 & A2 & A3 & A4 & A5 & A6 & A7 & A8). simpl in *.
    repeat split; try assumption.
    + rewrite A7. destruct recs; [discriminate | discriminate].
    + rewrite A7. destruct recs; [congruence | reflexivity].
    + rewrite A8. now destruct (last_time recs).
  - repeat split; try reflexivity; try discriminate. congruence.
Qed.

Lemma scan_lines_debug fname prefix suffix i lines :
  map li_line (snd (scan_lines fname prefix suffix i lines)) = lines /\
  map li_line_num (snd (scan_lines fname prefix suffix i lines))
  = seq (i + 1) (length lines).
Proof.
  revert i; induction lines as [|text rest IH]; intros i; simpl;
    [split; reflexivity|].
  pose proof (scan_line_info fname prefix suffix i text)
    as (N & T & _).
  destruct (scan_line fname prefix suffix i text) as [recs info].
  destruct (IH (S i)) as [L M].
  destruct (scan_lines fname prefix suffix (S i) rest) as [times debug_info].
  simpl in *. rewrite N, T, L, M. split; [reflexivity|].
  now replace (S i + 1) with (S (i + 1)) by lia.
Qed.

(** X4.  The entry of [debug_info] for a line carries its number and
    text and the two containment tests; its key "matched" is true
    exactly when the line yielded a record, its key "time_value" is the
    value of the last record of the line, and the position lists are set
    exactly when the line contains both strings. *)
Theorem line_info_reports_the_scan fname prefix suffix i text :
  let recs := fst (scan_line fname prefix suffix i text) in
  let info := snd (scan_line fname prefix suffix i text) in
  li_line_num info = i + 1 /\ li_line info = text /\
  li_contains_prefix info = Py.contains prefix text /\
  li_contains_suffix info = Py.contains suffix text /\
  (li_matched info = true <-> recs <> []) /\
  li_time_value info = last_time recs /\
  li_prefix_positions info =
  (if Py.contains prefix text && Py.contains suffix text
   then Some (find_positions text prefix) else None) /\
  li_suffix_positions info =
  (if Py.contains prefix text && Py.contains suffix text
   then Some (find_positions text suffix) else None).
Proof. exact (scan_line_info fname prefix suffix i text). Qed.

(** X5.  A file that could be read has one entry of [debug_info] per
    line of its stripped content, in order and numbered from 1; there is
    always at least one. *)
Theorem debug_info_one_entry_per_line content prefix suffix fname :
  map li_line (snd (extract content prefix suffix fname))
  = content_lines content /\
  map li_line_num (snd (extract content prefix suffix fname))
  = seq 1 (length (content_lines content)) /\
  1 <= length (snd (extract content prefix suffix fname)).
Proof.
  destruct (scan_lines_debug fname prefix suffix 0 (content_lines content))
    as [L N].
  fold (extract content prefix suffix fname) in L, N.
  split; [exact L|]. split; [exact N|].
  rewrite <- (length_map li_line), L. unfold content_lines.
  destruct (split_newline_cons (Py.strip content)) as (l & ls & ->).
  simpl. lia.
Qed.

Lemma lstrip_all_space s : all_space s -> Py.lstrip s = [].
Proof.
  induction 1 as [|c t C F IH]; simpl; [reflexivity|]. now rewrite C.
Qed.

Lemma strip_all_space s : all_space s -> Py.strip s = [].
Proof.
  intros A. unfold Py.strip. now rewrite (lstrip_all_space s A).
Qed.

(** X6.  A content of whitespace alone, the empty content included, is
    one empty line and yields no record, whatever the prefix and the
    suffix. *)
Theorem blank_content_no_record content prefix suffix fname :
  all_space content ->
  content_lines content = [[]] /\
  fst (extract content prefix suffix fname) = [].
Proof.
  intros A. assert (L : content_lines content = [[]])
    by (unfold content_lines; now rewrite (strip_all_space content A)).
  split; [exact L|].
  unfold extract. rewrite L. rewrite scan_lines_cons. simpl.
  rewrite app_nil_r.
  destruct (scan_line_sound fname prefix suffix 0 []) as [_ S].
  destruct (fst (scan_line fname prefix suffix 0 [])) as [|r l];
    [reflexivity|].
  exfalso. inversion S as [|? ? V _]; subst.
  destruct V as (pp & sp & m & _ & _ & _ & Run & _).
  destruct Run as (pre & post & E & _ & M & _).
  unfold between, Py.slice in E. rewrite skipn_nil, firstn_nil in E.
  change (Py.strip []) with (@nil ascii) in E.
  destruct pre; [destruct m; [congruence | discriminate] | discriminate].
Qed.

Lemma blank_content_witness :
  all_space [" "%char; Py.newline; " "%char] /\
  fst (extract [" "%char; Py.newline; " "%char] (py "A") (py "B") (py "f"))
  = [].
Proof.
  assert (A : all_space [" "%char; Py.newline; " "%char])
    by (repeat constructor).
  split; [exact A|].
  apply (blank_content_no_record _ (py "A") (py "B") (py "f") A).
Defined.

(** ** All the records of a line *)

Lemma scan_suffixes_found fname i text pe sps info :
  let '(recs, found', _) := scan_suffixes fname i text pe sps true info in
  found' = true /\
  map time recs =
  match sps with
  | [] => []
  | sp :: _ => match candidate_value text pe sp with
               | Some v => [v]
               | None => []
               end
  end.
Proof.
  destruct sps as [|sp sps]; simpl; [now split|].
  unfold candidate_value. destruct (pe <=? sp); [|now split].
  destruct (Py.re_search_digits (between text pe sp)) as [m|]; [|now split].
  destruct (Py.int_of_match m); now split.
Qed.

Lemma scan_prefixes_found fname i text plen pps sps info :
  map time (fst (fst (scan_prefixes fname i text plen pps sps true info)))
  = later_values text plen pps sps.
Proof.
  revert info; induction pps as [|pp pps IH]; intros info; simpl;
    [reflexivity|].
  pose proof (scan_suffixes_found fname i text (pp + plen) sps info) as A.
  destruct (scan_suffixes fname i text (pp + plen) sps true info)
    as [[recs found1] info1].
  destruct A as [-> A]. specialize (IH info1).
  destruct (scan_prefixes fname i text plen pps sps true info1)
    as [[recs' found2] info2].
  simpl in *. now rewrite map_app, A, IH.
Qed.

Lemma scan_prefixes_values fname i text plen pps sps info :
  map time (fst (fst (scan_prefixes fname i text plen pps sps false info)))
  = line_values text plen pps sps.
Proof.
  revert info; induction pps as [|pp pps IH]; intros info; simpl;
    [reflexivity|].
  pose proof (scan_suffixes_not_found fname i text (pp + plen) sps info) as E.
  destruct (scan_suffixes fname i text (pp + plen) sps false info)
    as [[recs found1] info1].
  simpl in E.
  destruct (first_candidate text (pp + plen) sps) as [v|].
  - injection E as -> ->.
    pose proof (scan_prefixes_found fname i text plen pps sps info1) as F.
    destruct (scan_prefixes fname i text plen pps sps true info1)
      as [[recs' found2] info2].
    simpl in *. now rewrite F.
  - injection E as -> ->. specialize (IH info1).
    destruct (scan_prefixes fname i text plen pps sps false info1)
      as [[recs' found2] info2].
    exact IH.
Qed.

(** X14.  The values of the records of a line, in order.  A pair gives
    a value when it is a candidate, its stripped text between holds a
    digit and [int] converts the first run of digits.  The first value
    is that of the first prefix occurrence with a pair that gives a
    value, taken at the first such suffix occurrence; then, for each
    later prefix occurrence, comes the value of its pair with the first
    suffix occurrence of the line, when that pair gives one. *)
Theorem line_records_values fname prefix suffix i text :
  map time (fst (scan_line fname prefix suffix i text)) =
  line_values text (length prefix)
              (find_positions text prefix) (find_positions text suffix).
Proof.
  unfold scan_line.
  destruct (Py.contains prefix text) eqn:Cp; simpl.
  - destruct (Py.contains suffix text) eqn:Cs; simpl.
    + match goal with
      | |- context [scan_prefixes ?a ?b ?c ?d ?e ?f false ?g] =>
        pose proof (scan_prefixes_values a b c d e f g) as E;
        destruct (scan_prefixes a b c d e f false g) as [[recs fd] info2]
      end.
      exact E.
    + rewrite (contains_false_positions _ _ Cs).
      induction (find_positions text prefix); simpl; auto.
  - now rewrite (contains_false_positions _ _ Cp).
Qed.

(** A run of 4301 digits is not converted: the pair counts as no match
    and the scan goes on. *)
Lemma long_run_not_converted :
  fst (extract (py "A" ++ repeat "1"%char 4301 ++ py "B")
               (py "A") (py "B") (py "f")) = [] /\
  map time (fst (extract (py "A" ++ repeat "1"%char 4301 ++ py "B A7B")
                         (py "A") (py "B") (py "f"))) = [7%Z] /\
  map (fun r => Z.log2 (time r))
      (fst (extract (py "A" ++ repeat "1"%char 4300 ++ py "B")
                    (py "A") (py "B") (py "f"))) = [14281%Z].
Proof. repeat split; vm_compute; reflexivity. Qed.

(** * Further properties of the aggregator *)

(** The average is a float: it is rounded above [2^53], and a quotient
    beyond the range of a float makes the aggregation fail. *)
Lemma average_is_a_float :
  option_map st_avg
    (calculate_statistics [mkTime (py "f") 1 (2 ^ 53 + 1) [];
                           mkTime (py "f") 2 (2 ^ 53 + 1) []])
  = Some (inject_Z (2 ^ 52) * Qpower 2 1)%Q /\
  option_map st_avg
    (calculate_statistics [mkTime (py "f") 1 7 []; mkTime (py "f") 2 8 []])
  = Some (inject_Z 8444249301319680 * Qpower 2 (-50))%Q /\
  calculate_statistics [mkTime (py "f") 1 (10 ^ 400) []] = None /\
  group_by_file [mkTime (py "f") 1 (10 ^ 400) []] = None.
Proof. repeat split; vm_compute; reflexivity. Qed.

(** ** Minimum and maximum *)

Lemma fold_min_spec l a :
  In (fold_left Z.min l a) (a :: l) /\
  Forall (fun x => (fold_left Z.min l a <= x)%Z) (a :: l).
Proof.
  revert a; induction l as [|x l IH]; intros a; simpl.
  - split; [now left | repeat constructor; lia].
  - destruct (IH (Z.min a x)) as [I F]. inversion F as [|? ? F1 F2]; subst.
    split.
    + destruct I as [<-|I]; [|now right; right].
      destruct (Z.min_spec a x) as [[_ ->]|[_ ->]]; auto.
    + constructor; [lia|]. constructor; [lia | exact F2].
Qed.

Lemma fold_max_spec l a :
  In (fold_left Z.max l a) (a :: l) /\
  Forall (fun x => (x <= fold_left Z.max l a)%Z) (a :: l).
Proof.
  revert a; induction l as [|x l IH]; intros a; simpl.
  - split; [now left | repeat constructor; lia].
  - destruct (IH (Z.max a x)) as [I F]. inversion F as [|? ? F1 F2]; subst.
    split.
    + destruct I as [<-|I]; [|now right; right].
      destruct (Z.max_spec a x) as [[_ ->]|[_ ->]]; auto.
    + constructor; [lia|]. constructor; [lia | exact F2].
Qed.

Lemma py_min_spec values lo :
  py_min values = Some lo ->
  In lo values /\ Forall (fun x => (lo <= x)%Z) values.
Proof.
  destruct values as [|v rest]; [discriminate|]. intros [= <-].
  apply fold_min_spec.
Qed.

Lemma py_max_spec values hi :
  py_max values = Some hi ->
  In hi values /\ Forall (fun x => (x <= hi)%Z) values.
Proof.
  destruct values as [|v rest]; [discriminate|]. intros [= <-].
  apply fold_max_spec.
Qed.

Lemma fold_add_sum l a :
  fold_left Z.add l a = (a + fold_right Z.add 0 l)%Z.
Proof.
  revert a; induction l as [|x l IH]; intros a; simpl; [lia|].
  rewrite IH. lia.
Qed.

(** ** The interpolation *)

Lemma ceiling_div z :
  (- (- z / 100) = z / 100 + (if z mod 100 =? 0 then 0 else 1))%Z.
Proof.
  pose proof (Z.div_mod z 100 ltac:(lia)) as DM.
  pose proof (Z.mod_pos_bound z 100 ltac:(lia)) as MB.
  destruct (z mod 100 =? 0)%Z eqn:E.
  - apply Z.eqb_eq in E.
    replace (- z / 100)%Z with (- (z / 100))%Z; [lia|].
    apply Z.div_unique with (r := 0%Z); lia.
  - apply Z.eqb_neq in E.
    replace (- z / 100)%Z with (- (z / 100 + 1))%Z; [lia|].
    apply Z.div_unique with (r := (100 - z mod 100)%Z); lia.
Qed.

Lemma spec_percentile_interp values N :
  (spec_percentile values N
   == interp (sort values) (N * (Z.of_nat (length values) - 1)))%Q.
Proof.
  unfold spec_percentile, interp.
  rewrite rank_fraction, rank_floor, rank_ceiling. reflexivity.
Qed.

Lemma sorted_nth s i j :
  Sorted Z.le s -> i <= j < length s -> (nth i s 0 <= nth j s 0)%Z.
Proof.
  intros S. apply Sorted_StronglySorted in S;
    [|intros x y z; apply Z.le_trans].
  revert i j; induction S as [|a l S IH F]; intros i j [L1 L2]; simpl in *;
    [lia|].
  destruct j as [|j]; [replace i with 0 by lia; lia|].
  destruct i as [|i]; [|apply IH; lia].
  rewrite Forall_forall in F. apply F, nth_In. lia.
Qed.

Lemma fraction_bounds z :
  (0 <= z mod 100 # 100 /\ z mod 100 # 100 <= 1)%Q.
Proof.
  pose proof (Z.mod_pos_bound z 100 ltac:(lia)).
  unfold Qle. simpl. lia.
Qed.

(** The interpolation lies between the entries at the floor and at the
    ceiling of the rank. *)
Lemma interp_between s z :
  Sorted Z.le s -> (0 <= z <= 100 * (Z.of_nat (length s) - 1))%Z ->
  (inject_Z (nth (Z.to_nat (z / 100)) s 0%Z) <= interp s z /\
   interp s z <= inject_Z (nth (Z.to_nat (- (- z / 100))) s 0%Z))%Q.
Proof.
  intros S B. unfold interp. rewrite ceiling_div.
  pose proof (Z.div_mod z 100 ltac:(lia)) as DM.
  pose proof (Z.mod_pos_bound z 100 ltac:(lia)) as MB.
  destruct (fraction_bounds z) as [G0 G1].
  assert (A : (nth (Z.to_nat (z / 100)) s 0
               <= nth (Z.to_nat (z / 100
                                 + (if z mod 100 =? 0 then 0 else 1))) s 0)%Z).
  { apply sorted_nth; [exact S|].
    destruct (z mod 100 =? 0)%Z eqn:E;
      [apply Z.eqb_eq in E | apply Z.eqb_neq in E]; lia. }
  rewrite Zle_Qle in A. split; nra.
Qed.

Lemma interp_mono s z z' :
  Sorted Z.le s ->
  (0 <= z <= z')%Z -> (z' <= 100 * (Z.of_nat (length s) - 1))%Z ->
  (interp s z <= interp s z')%Q.
Proof.
  intros S B B'.
  pose proof (Z.div_mod z 100 ltac:(lia)) as DM.
  pose proof (Z.mod_pos_bound z 100 ltac:(lia)) as MB.
  pose proof (Z.div_mod z' 100 ltac:(lia)) as DM'.
  pose proof (Z.mod_pos_bound z' 100 ltac:(lia)) as MB'.
  destruct (Z.lt_ge_cases (z / 100) (z' / 100)) as [Lt|Ge].
  - destruct (interp_between s z S ltac:(lia)) as [_ U].
    destruct (interp_between s z' S ltac:(lia)) as [L _].
    eapply Qle_trans; [exact U|]. eapply Qle_trans; [|exact L].
    rewrite <- Zle_Qle. rewrite ceiling_div. apply sorted_nth; [exact S|].
    destruct (z mod 100 =? 0)%Z; lia.
  - assert (E : (z / 100 = z' / 100)%Z) by lia.
    assert (R : (z mod 100 <= z' mod 100)%Z) by lia.
    destruct (Z.eq_dec (z mod 100) 0) as [Z0|NZ].
    + destruct (interp_between s z' S ltac:(lia)) as [L _].
      eapply Qle_trans; [|exact L]. unfold interp. rewrite Z0, E.
      setoid_replace (0 # 100)%Q with 0%Q by reflexivity. nra.
    + unfold interp. rewrite !ceiling_div, E.
      assert (NZ' : (z' mod 100 <> 0)%Z) by lia.
      apply Z.eqb_neq in NZ, NZ'. rewrite NZ, NZ'.
      assert (A : (nth (Z.to_nat (z' / 100)) s 0
                   <= nth (Z.to_nat (z' / 100 + 1)) s 0)%Z).
      { apply sorted_nth; [exact S|]. apply Z.eqb_neq in NZ'. lia. }
      rewrite Zle_Qle in A.
      assert (G : (z mod 100 # 100 <= z' mod 100 # 100)%Q)
        by (unfold Qle; simpl; lia).
      destruct (fraction_bounds z) as [G0 _]. nra.
Qed.

(** ** What the statistics are *)

(** X7.  When the statistics of a non-empty list of records are
    returned, the count is the number of records, and the minimum and
    the maximum are values of the list that bound all its values. *)
Theorem statistics_within_bounds times s :
  times <> [] ->
  calculate_statistics times = Some s ->
  st_count s = length times /\
  In (st_min s) (map time times) /\ In (st_max s) (map time times) /\
  Forall (fun v => (st_min s <= v <= st_max s)%Z) (map time times).
Proof.
  intros NE E. split; [exact (calculate_statistics_count _ _ E)|].
  assert (S : summarize (map time times) = Some s)
    by (destruct times; [congruence | exact E]).
  destruct (summarize_Some _ _ S) as (_ & _ & Mn & Mx & _).
  destruct (py_min_spec _ _ Mn) as [I1 F1].
  destruct (py_max_spec _ _ Mx) as [I2 F2].
  split; [exact I1|]. split; [exact I2|].
  rewrite Forall_forall in *. intros v I. split; auto.
Qed.

Lemma statistics_bounds_witness :
  exists s,
    calculate_statistics [mkTime (py "f") 1 4 []; mkTime (py "f") 2 9 []]
    = Some s /\
    st_count s = 2 /\ In (st_min s) [4; 9]%Z /\ In (st_max s) [4; 9]%Z /\
    Forall (fun v => (st_min s <= v <= st_max s)%Z) [4; 9]%Z.
Proof.
  destruct (calculate_statistics
              [mkTime (py "f") 1 4 []; mkTime (py "f") 2 9 []])
    as [s|] eqn:E; [|discriminate E].
  exists s. split; [reflexivity|].
  apply (statistics_within_bounds
           [mkTime (py "f") 1 4 []; mkTime (py "f") 2 9 []] s);
    [discriminate | exact E].
Defined.

(** X8.  When the statistics of a non-empty list of records are
    returned, the median is at most p90, p90 at most p95 and p95 at most
    p99, for the percentiles as modelled: numpy's method "linear" over
    exact rationals. *)
Theorem percentiles_ascend times s :
  times <> [] ->
  calculate_statistics times = Some s ->
  (st_median s <= st_p90 s /\ st_p90 s <= st_p95 s /\
   st_p95 s <= st_p99 s)%Q.
Proof.
  intros NE E.
  assert (S : summarize (map time times) = Some s)
    by (destruct times; [congruence | exact E]).
  destruct (summarize_Some _ _ S) as (NV & _ & _ & _ & M & P90 & P95 & P99).
  rewrite M, P90, P95, P99, (np_median_spec _ NV).
  rewrite !np_percentile_spec by (try assumption; lia).
  rewrite !spec_percentile_interp.
  destruct (sort_spec (map time times)) as [Sd _].
  assert (1 <= length (map time times)) as L
    by (destruct (map time times); simpl; [congruence|lia]).
  split; [|split]; apply interp_mono; try exact Sd;
    rewrite ?sort_length; lia.
Qed.

Lemma percentiles_ascend_witness :
  exists s,
    calculate_statistics [mkTime (py "f") 1 4 []; mkTime (py "f") 2 9 []]
    = Some s /\
    (st_median s <= st_p90 s /\ st_p90 s <= st_p95 s /\
     st_p95 s <= st_p99 s)%Q.
Proof.
  destruct (calculate_statistics
              [mkTime (py "f") 1 4 []; mkTime (py "f") 2 9 []])
    as [s|] eqn:E; [|discriminate E].
  exists s. split; [reflexivity|].
  apply (percentiles_ascend
           [mkTime (py "f") 1 4 []; mkTime (py "f") 2 9 []] s);
    [discriminate | exact E].
Defined.

(** ** The order of the records *)

Lemma sorted_perm_unique l l' :
  Sorted Z.le l -> Sorted Z.le l' -> Permutation l l' -> l = l'.
Proof.
  intros S S'.
  apply Sorted_StronglySorted in S; [|intros x y z; apply Z.le_trans].
  apply Sorted_StronglySorted in S'; [|intros x y z; apply Z.le_trans].
  revert l' S'; induction S as [|a l S IH F]; intros l' S' P.
  - now apply Permutation_nil in P.
  - destruct S' as [|b l' S' F'];
      [apply Permutation_sym, Permutation_nil in P; discriminate|].
    rewrite Forall_forall in F, F'.
    assert (a = b).
    { assert (Ib : In b (a :: l))
        by (eapply Permutation_in; [symmetry; exact P | now left]).
      assert (Ia : In a (b :: l'))
        by (eapply Permutation_in; [exact P | now left]).
      destruct Ib as [|Ib]; [assumption|]. destruct Ia as [|Ia]; [auto|].
      apply F in Ib. apply F' in Ia. lia. }
    subst b. f_equal. apply IH; [exact S'|].
    eapply Permutation_cons_inv; exact P.
Qed.

Lemma sort_perm l l' : Permutation l l' -> sort l = sort l'.
Proof.
  intros P. destruct (sort_spec l) as [S P1], (sort_spec l') as [S' P2].
  apply sorted_perm_unique; try assumption.
  etransitivity; [symmetry; exact P1|].
  etransitivity; [exact P | exact P2].
Qed.

Lemma py_min_perm l l' : Permutation l l' -> py_min l = py_min l'.
Proof.
  intros P. destruct (py_min l) as [a|] eqn:A, (py_min l') as [b|] eqn:B.
  - destruct (py_min_spec _ _ A) as [Ia Fa], (py_min_spec _ _ B) as [Ib Fb].
    rewrite Forall_forall in Fa, Fb. f_equal.
    assert (b <= a)%Z by (apply Fb; eapply Permutation_in; eassumption).
    assert (a <= b)%Z
      by (apply Fa; eapply Permutation_in; [symmetry|]; eassumption).
    lia.
  - destruct l'; [|discriminate]. apply Permutation_sym, Permutation_nil in P.
    subst; discriminate.
  - destruct l; [|discriminate]. apply Permutation_nil in P.
    subst; discriminate.
  - reflexivity.
Qed.

Lemma py_max_perm l l' : Permutation l l' -> py_max l = py_max l'.
Proof.
  intros P. destruct (py_max l) as [a|] eqn:A, (py_max l') as [b|] eqn:B.
  - destruct (py_max_spec _ _ A) as [Ia Fa], (py_max_spec _ _ B) as [Ib Fb].
    rewrite Forall_forall in Fa, Fb. f_equal.
    assert (a <= b)%Z by (apply Fb; eapply Permutation_in; eassumption).
    assert (b <= a)%Z
      by (apply Fa; eapply Permutation_in; [symmetry|]; eassumption).
    lia.
  - destruct l'; [|discriminate]. apply Permutation_sym, Permutation_nil in P.
    subst; discriminate.
  - destruct l; [|discriminate]. apply Permutation_nil in P.
    subst; discriminate.
  - reflexivity.
Qed.

Lemma py_sum_perm l l' : Permutation l l' -> py_sum l = py_sum l'.
Proof.
  unfold py_sum. rewrite !fold_add_sum.
  induction 1; simpl in *; lia.
Qed.

Lemma summarize_perm l l' : Permutation l l' -> summarize l = summarize l'.
Proof.
  intros P. unfold summarize, np_median, np_percentile.
  now rewrite (py_min_perm _ _ P), (py_max_perm _ _ P), (py_sum_perm _ _ P),
    (sort_perm _ _ P), (Permutation_length P).
Qed.

(** X9.  The overall statistics do not depend on the order of the
    records. *)
Theorem statistics_order_independent times times' :
  Permutation times times' ->
  calculate_statistics times = calculate_statistics times'.
Proof.
  intros P. destruct times as [|r l], times' as [|r' l'].
  - reflexivity.
  - apply Permutation_nil in P. discriminate.
  - apply Permutation_sym, Permutation_nil in P. discriminate.
  - unfold calculate_statistics. apply summarize_perm.
    now apply Permutation_map.
Qed.

Lemma statistics_order_witness :
  calculate_statistics [mkTime (py "a") 1 4 []; mkTime (py "b") 1 9 []] =
  calculate_statistics [mkTime (py "b") 1 9 []; mkTime (py "a") 1 4 []].
Proof.
  apply (statistics_order_independent
           [mkTime (py "a") 1 4 []; mkTime (py "b") 1 9 []]
           [mkTime (py "b") 1 9 []; mkTime (py "a") 1 4 []]).
  apply perm_swap.
Defined.

(** ** The statistics of one file *)

Lemma py_eqb_eq a b : Py.eqb a b = true <-> a = b.
Proof.
  revert b; induction a as [|x a IH]; intros [|y b]; simpl;
    try (split; [reflexivity | reflexivity]);
    try (split; discriminate).
  rewrite andb_true_iff, IH, Ascii.eqb_eq. split.
  - intros [-> ->]. reflexivity.
  - intros [= -> ->]. now split.
Qed.

Lemma py_eqb_trans_l a b c :
  Py.eqb a b = true -> Py.eqb a c = Py.eqb b c.
Proof. intros E. apply py_eqb_eq in E. now subst. Qed.

Lemma group_append_get groups k v key :
  dict_get (group_append groups k v) key =
  if Py.eqb k key
  then Some (match dict_get groups k with
             | Some values => values ++ [v]
             | None => [v]
             end)
  else dict_get groups key.
Proof.
  induction groups as [|[k' values] rest IH]; simpl; [reflexivity|].
  destruct (Py.eqb k' k) eqn:E; simpl.
  - rewrite (py_eqb_trans_l _ _ key E). now destruct (Py.eqb k key).
  - rewrite IH. destruct (Py.eqb k key) eqn:K; [|reflexivity].
    apply py_eqb_eq in K. subst key. now rewrite E.
Qed.

Lemma group_append_keys groups k v key :
  In key (map fst (group_append groups k v)) <->
  key = k \/ In key (map fst groups).
Proof.
  induction groups as [|[k' values] rest IH]; simpl;
    [intuition congruence|].
  destruct (Py.eqb k' k) eqn:E; simpl.
  - apply py_eqb_eq in E. subst. intuition congruence.
  - rewrite IH. intuition congruence.
Qed.

Lemma group_append_nodup groups k v :
  NoDup (map fst groups) -> NoDup (map fst (group_append groups k v)).
Proof.
  induction groups as [|[k' values] rest IH]; simpl.
  - intros _. constructor; [tauto | constructor].
  - intros N. inversion N as [|? ? NI N']; subst.
    destruct (Py.eqb k' k) eqn:E; simpl; [exact N|].
    constructor; [|now apply IH].
    rewrite group_append_keys. intros [->|I]; [|contradiction].
    assert (Py.eqb k k = true) by now apply py_eqb_eq.
    congruence.
Qed.

Lemma file_groups_snoc times r :
  file_groups (times ++ [r]) =
  group_append (file_groups times) (file r) (time r).
Proof. unfold file_groups. now rewrite fold_left_app. Qed.

Lemma file_groups_nodup times : NoDup (map fst (file_groups times)).
Proof.
  induction times as [|r times IH] using rev_ind; [constructor|].
  rewrite file_groups_snoc. now apply group_append_nodup.
Qed.

Lemma file_groups_get times key :
  dict_get (file_groups times) key =
  match records_of key times with
  | [] => None
  | _ :: _ => Some (map time (records_of key times))
  end.
Proof.
  induction times as [|r times IH] using rev_ind; [reflexivity|].
  rewrite file_groups_snoc, group_append_get. unfold records_of in *.
  rewrite filter_app. simpl.
  destruct (Py.eqb (file r) key) eqn:E.
  - apply py_eqb_eq in E. subst key. rewrite IH, map_app. simpl.
    destruct (filter (fun r0 => Py.eqb (file r0) (file r)) times);
      reflexivity.
  - now rewrite app_nil_r.
Qed.

Lemma group_stats_get groups stats key :
  group_stats groups = Some stats ->
  dict_get stats key =
  match dict_get groups key with
  | Some values => summarize values
  | None => None
  end.
Proof.
  revert stats; induction groups as [|[k values] rest IH]; intros stats;
    simpl.
  - now intros [= <-].
  - destruct (summarize values) as [s|] eqn:S; [|discriminate].
    destruct (group_stats rest) as [stats'|]; [|discriminate].
    intros [= <-]. simpl. destruct (Py.eqb k key); [now rewrite S|].
    now apply IH.
Qed.

(** X10.  When the per-file statistics are returned, their keys are
    distinct, and the entry of a file name is the statistics of the
    records of that file alone, computed as the overall statistics are;
    a file name without a record has no entry. *)
Theorem per_file_statistics_lookup times file_stats file_name :
  group_by_file times = Some file_stats ->
  NoDup (map fst file_stats) /\
  dict_get file_stats file_name =
  match records_of file_name times with
  | [] => None
  | _ :: _ => calculate_statistics (records_of file_name times)
  end.
Proof.
  intros G. destruct (group_stats_Some _ _ G) as [K _]. split.
  - rewrite K. apply file_groups_nodup.
  - rewrite (group_stats_get _ _ file_name G), file_groups_get.
    now destruct (records_of file_name times).
Qed.

Lemma per_file_lookup_witness :
  exists file_stats,
    group_by_file [mkTime (py "a") 1 5 []; mkTime (py "b") 1 7 [];
                   mkTime (py "a") 2 6 []] = Some file_stats /\
    dict_get file_stats (py "a") =
    calculate_statistics [mkTime (py "a") 1 5 []; mkTime (py "a") 2 6 []] /\
    dict_get file_stats (py "c") = None.
Proof.
  destruct (group_by_file [mkTime (py "a") 1 5 []; mkTime (py "b") 1 7 [];
                           mkTime (py "a") 2 6 []]) as [file_stats|] eqn:G;
    [|discriminate G].
  exists file_stats. split; [reflexivity|]. split.
  - exact (proj2 (per_file_statistics_lookup _ _ (py "a") G)).
  - exact (proj2 (per_file_statistics_lookup _ _ (py "c") G)).
Defined.

(** * Further properties of the run *)

Lemma extract_file_field content prefix suffix fname :
  Forall (fun r => file r = fname) (fst (extract content prefix suffix fname)).
Proof.
  pose proof (scan_lines_from fname prefix suffix [] (content_lines content))
    as F.
  simpl in F. fold (extract content prefix suffix fname) in F.
  eapply Forall_impl; [|exact F]. simpl. intros r (_ & text & _ & I).
  pose proof (scan_line_records fname prefix suffix (line_num r - 1) text) as R.
  rewrite Forall_forall in R. exact (proj1 (R r I)).
Qed.

Section DirectoryFacts.

Variable basename : str -> str.
Variable read_file : str -> option str.
Variable glob : str -> list str.
Variable isfile : str -> bool.
Variable file_ext : str -> str.

Lemma get_all_files_In log_dir f :
  In f (get_all_files glob isfile file_ext log_dir) <->
  In f (glob log_dir) /\ isfile f = true /\
  ~ In (file_ext f) excluded_extensions.
Proof.
  unfold get_all_files. rewrite filter_In, andb_true_iff, negb_true_iff.
  assert (E : existsb (Py.eqb (file_ext f)) excluded_extensions = false <->
              ~ In (file_ext f) excluded_extensions).
  { rewrite <- not_true_iff_false, existsb_exists. split.
    - intros N I. apply N. exists (file_ext f). split; [exact I|].
      now apply py_eqb_eq.
    - intros N (x & I & Ex). apply py_eqb_eq in Ex. now subst. }
  rewrite E. tauto.
Qed.

(** X11.  Every record of a directory belongs to an entry of the listing
    that is a regular file, whose extension is neither ".exe" nor ".bat"
    and which could be read: the record carries the base name of that
    file and is a record of its content. *)
Theorem records_come_from_listed_files log_dir prefix suffix :
  Forall (fun r =>
            exists log_file content,
              In log_file (glob log_dir) /\ isfile log_file = true /\
              file_ext log_file <> py ".exe" /\
              file_ext log_file <> py ".bat" /\
              read_file log_file = Some content /\
              file r = basename log_file /\
              In r (fst (extract content prefix suffix (basename log_file))))
         (fst (extract_times_from_directory basename read_file glob isfile
                                            file_ext log_dir prefix suffix)).
Proof.
  rewrite extract_times_from_directory_times. apply Forall_forall.
  intros r I. apply in_flat_map in I. destruct I as (f & If & Ir).
  apply get_all_files_In in If. destruct If as (G & F & N).
  unfold extract_times_from_file in Ir.
  destruct (read_file f) as [content|] eqn:R; [|destruct Ir].
  exists f, content. repeat split; try assumption.
  - intros E. apply N. rewrite E. now left.
  - intros E. apply N. rewrite E. right. now left.
  - pose proof (extract_file_field content prefix suffix (basename f)) as S.
    rewrite Forall_forall in S. now apply S.
Qed.

Lemma dict_set_get {V} (d : list (str * V)) key value key' :
  dict_get (dict_set d key value) key' =
  if Py.eqb key key' then Some value else dict_get d key'.
Proof.
  induction d as [|[k v] rest IH]; simpl; [reflexivity|].
  destruct (Py.eqb k key) eqn:E; simpl.
  - rewrite (py_eqb_trans_l _ _ key' E). now destruct (Py.eqb key key').
  - rewrite IH. destruct (Py.eqb key key') eqn:K; [|reflexivity].
    apply py_eqb_eq in K. subst key'. now rewrite E.
Qed.

Lemma extract_files_debug_other files prefix suffix all_times debug key :
  ~ In key (map basename files) ->
  dict_get (snd (extract_files basename read_file files prefix suffix
                               all_times debug)) key
  = dict_get debug key.
Proof.
  revert all_times debug; induction files as [|f rest IH];
    intros all_times debug N; simpl; [reflexivity|].
  destruct (extract_times_from_file basename read_file f prefix suffix)
    as [times debug_info].
  simpl in N. rewrite IH by tauto. rewrite dict_set_get.
  destruct (Py.eqb (basename f) key) eqn:E; [|reflexivity].
  apply py_eqb_eq in E. tauto.
Qed.

Lemma extract_files_debug files prefix suffix all_times debug f :
  NoDup (map basename files) -> In f files ->
  dict_get (snd (extract_files basename read_file files prefix suffix
                               all_times debug)) (basename f)
  = Some (snd (extract_times_from_file basename read_file f prefix suffix)).
Proof.
  revert all_times debug; induction files as [|g rest IH];
    intros all_times debug N I; [destruct I|].
  simpl in N. inversion N as [|? ? NI N']; subst. simpl.
  destruct (extract_times_from_file basename read_file g prefix suffix)
    as [times debug_info] eqn:E.
  destruct I as [->|I].
  - rewrite extract_files_debug_other by exact NI.
    rewrite dict_set_get, E.
    assert (Py.eqb (basename f) (basename f) = true) as ->
      by now apply py_eqb_eq.
    reflexivity.
  - now apply IH.
Qed.

(** X12.  When the listed files have distinct base names, the
    debugging dict of the directory holds, under the base name of each
    listed file, the debugging information of that file; for a file that
    could not be read this is the empty list. *)
Theorem debug_info_of_each_file log_dir prefix suffix f :
  NoDup (map basename (get_all_files glob isfile file_ext log_dir)) ->
  In f (get_all_files glob isfile file_ext log_dir) ->
  dict_get (snd (extract_times_from_directory basename read_file glob isfile
                                              file_ext log_dir prefix suffix))
           (basename f)
  = Some (snd (extract_times_from_file basename read_file f prefix suffix)) /\
  (read_file f = None ->
   snd (extract_times_from_file basename read_file f prefix suffix) = []).
Proof.
  intros N I. split.
  - unfold extract_times_from_directory.
    destruct (get_all_files glob isfile file_ext log_dir) as [|g rest] eqn:E;
      [destruct I|].
    now apply extract_files_debug.
  - intros R. unfold extract_times_from_file. now rewrite R.
Qed.

End DirectoryFacts.

Lemma debug_info_witness :
  dict_get (snd (extract_times_from_directory
                   sample_basename sample_read sample_glob sample_isfile
                   sample_ext [] (py "x=") (py "ms")))
           (sample_basename (py "a.log"))
  = Some (snd (extract_times_from_file sample_basename sample_read
                                       (py "a.log") (py "x=") (py "ms"))) /\
  (sample_read (py "a.log") = None ->
   snd (extract_times_from_file sample_basename sample_read
                                (py "a.log") (py "x=") (py "ms")) = []).
Proof.
  apply (debug_info_of_each_file
           sample_basename sample_read sample_glob sample_isfile sample_ext
           [] (py "x=") (py "ms") (py "a.log")).
  - repeat constructor; simpl; intuition discriminate.
  - simpl. now left.
Defined.
